(** * Car API backend: the resource router of [src/routes/cars.js]

    A shallow embedding of the Express router that serves the car records
    (five routes over a Prisma table and an image directory), and the
    properties of the routes that the specification states.

    Layout: [JS] holds the JavaScript built-ins the handlers call
    ([isNaN], [parseInt], [parseFloat], truthiness, string conversion);
    [Env] holds the state of the world and the effect monad that threads it;
    [Prisma] and [Fs] hold the two stores the handlers talk to, the [car]
    table and the image directory; [Cars] holds the multer set-up and the five
    handlers, one definition per route, in the order of the source file.  The
    theorems follow. *)

From Stdlib Require Import ZArith NArith String Ascii List Bool DecimalString DecimalN.
From stdpp Require Import gmap strings list fin_maps.

Local Open Scope Z_scope.

(* ===================================================================== *)
(** ** JavaScript built-ins *)
(* ===================================================================== *)

Module JS.

(** A JavaScript number, that is a binary64 value, written in decimal.
    Every finite binary64 value has a finite decimal expansion, and the
    canonical form of it is kept: an integer is [Int z] (with [Int 0] for
    [+0] and [NegZero] for [-0]); any other finite value is [Frac neg m e],
    the value [(-1)^neg * m / 10^e] with [e >= 1] and [m] not a multiple of
    ten.  The functions below that produce a number round to the nearest
    binary64 value, ties to even, see [to_binary64]. *)
Inductive number : Type :=
  | NaN
  | Infinity (neg : bool)
  | NegZero
  | Int (z : Z)
  | Frac (neg : bool) (m e : positive).

(** The values a parsed request body can hold in a field.  A multipart or
    url-encoded form yields strings; a JSON body yields any JSON value.  An
    object or array is kept as [VObject str], [str] being the string that
    [ToString] gives for it. *)
Inductive value : Type :=
  | VUndefined
  | VNull
  | VBool (b : bool)
  | VNumber (n : number)
  | VString (s : string)
  | VObject (str : string).

(** [ToBoolean]: what the conditions [!x], [x || y] and [x ? a : b] test. *)
Definition ToBoolean (v : value) : bool :=
  match v with
  | VUndefined | VNull => false
  | VBool b => b
  | VNumber NaN | VNumber NegZero => false
  | VNumber (Int z) => negb (z =? 0)
  | VNumber _ => true
  | VString s => negb (String.eqb s EmptyString)
  | VObject _ => true
  end.

(** [a || b] on values. *)
Definition or_else (a b : value) : value := if ToBoolean a then a else b.

(** *** Characters

    A text is a [string] of bytes, the UTF-8 form of the JavaScript string. *)

Definition chars (s : string) : list ascii := list_ascii_of_string s.
Definition str (l : list ascii) : string := string_of_list_ascii l.

(** White space and line terminators of one byte: U+0009 to U+000D and the
    space. *)
Definition is_white (c : ascii) : bool :=
  let n := N_of_ascii c in
  ((9 <=? n) && (n <=? 13) || (n =? 32))%N.

(** White space of two bytes: U+00A0, the no-break space. *)
Definition is_white2 (a b : ascii) : bool :=
  ((N_of_ascii a =? 194) && (N_of_ascii b =? 160))%N.

(** White space and line terminators of three bytes: U+1680, U+2000 to
    U+200A, U+2028, U+2029, U+202F, U+205F, U+3000 and U+FEFF. *)
Definition is_white3 (a b c : ascii) : bool :=
  let x := N_of_ascii a in
  let y := N_of_ascii b in
  let z := N_of_ascii c in
  ((x =? 225) && (y =? 154) && (z =? 128)
   || (x =? 226) && (y =? 128)
      && ((128 <=? z) && (z <=? 138) || (z =? 168) || (z =? 169) || (z =? 175))
   || (x =? 226) && (y =? 129) && (z =? 159)
   || (x =? 227) && (y =? 128) && (z =? 128)
   || (x =? 239) && (y =? 187) && (z =? 191))%N.

(** The value of a character as a digit of some radix up to 36. *)
Definition char_val (c : ascii) : option N :=
  let n := N_of_ascii c in
  if ((48 <=? n) && (n <=? 57))%N then Some (n - 48)%N
  else if ((97 <=? n) && (n <=? 122))%N then Some (n - 87)%N
  else if ((65 <=? n) && (n <=? 90))%N then Some (n - 55)%N
  else None.

Definition digit_in (R : N) (c : ascii) : option N :=
  match char_val c with
  | Some v => if (v <? R)%N then Some v else None
  | None => None
  end.

Definition is_digit_in (R : N) (c : ascii) : bool :=
  match digit_in R c with Some _ => true | None => false end.

Definition is_digit : ascii -> bool := is_digit_in 10.

(** The longest prefix of digits of radix [R], as digit values, and the rest. *)
Fixpoint span_digits (R : N) (l : list ascii) : list N * list ascii :=
  match l with
  | [] => ([], [])
  | c :: r =>
      match digit_in R c with
      | Some v => let '(ds, rest) := span_digits R r in (v :: ds, rest)
      | None => ([], l)
      end
  end.

Definition digits_value (R : N) (ds : list N) : N :=
  fold_left (fun acc d => acc * R + d)%N ds 0%N.

(** The text without the white space it starts with. *)
Fixpoint trim_start (l : list ascii) : list ascii :=
  match l with
  | [] => []
  | a :: r1 =>
      if is_white a then trim_start r1
      else match r1 with
           | [] => l
           | b :: r2 =>
               if is_white2 a b then trim_start r2
               else match r2 with
                    | [] => l
                    | c :: r3 => if is_white3 a b c then trim_start r3 else l
                    end
           end
  end.

(** The same on a reversed text, where the bytes of a character come last
    byte first. *)
Fixpoint trim_start_rev (l : list ascii) : list ascii :=
  match l with
  | [] => []
  | c :: r1 =>
      if is_white c then trim_start_rev r1
      else match r1 with
           | [] => l
           | b :: r2 =>
               if is_white2 b c then trim_start_rev r2
               else match r2 with
                    | [] => l
                    | a :: r3 => if is_white3 a b c then trim_start_rev r3 else l
                    end
           end
  end.

Definition trim (l : list ascii) : list ascii :=
  rev (trim_start_rev (rev (trim_start l))).

Definition ascii_eqb (a b : ascii) : bool := Ascii.eqb a b.

Fixpoint starts_with (p l : list ascii) : option (list ascii) :=
  match p, l with
  | [], _ => Some l
  | a :: p', b :: l' => if ascii_eqb a b then starts_with p' l' else None
  | _ :: _, [] => None
  end.

Definition nonempty {A} (l : list A) : bool :=
  match l with [] => false | _ => true end.

(** *** [Number(string)] is [NaN]: the grammar of StringNumericLiteral *)

(** [DecimalDigits] exactly: one digit or more and nothing else. *)
Definition decimalDigits (l : list ascii) : bool :=
  nonempty l && forallb is_digit l.

Definition signedInteger (l : list ascii) : bool :=
  match l with
  | "+"%char :: r | "-"%char :: r => decimalDigits r
  | _ => decimalDigits l
  end.

(** An optional [ExponentPart] and then the end of the text. *)
Definition exponentPart_opt (l : list ascii) : bool :=
  match l with
  | [] => true
  | c :: r => (ascii_eqb c "e" || ascii_eqb c "E") && signedInteger r
  end.

Definition strUnsignedDecimalLiteral (l : list ascii) : bool :=
  match starts_with (chars "Infinity") l with
  | Some [] => true
  | _ =>
      let '(int, r1) := span_digits 10 l in
      match r1 with
      | "."%char :: r =>
          let '(frac, r2) := span_digits 10 r in
          (nonempty int || nonempty frac) && exponentPart_opt r2
      | _ => nonempty int && exponentPart_opt r1
      end
  end.

Definition strDecimalLiteral (l : list ascii) : bool :=
  match l with
  | "+"%char :: r | "-"%char :: r => strUnsignedDecimalLiteral r
  | _ => strUnsignedDecimalLiteral l
  end.

(** [0x], [0o] and [0b] literals; they take no sign. *)
Definition nonDecimalIntegerLiteral (l : list ascii) : bool :=
  match l with
  | "0"%char :: c :: ds =>
      if ascii_eqb c "x" || ascii_eqb c "X" then nonempty ds && forallb (is_digit_in 16) ds
      else if ascii_eqb c "o" || ascii_eqb c "O" then nonempty ds && forallb (is_digit_in 8) ds
      else if ascii_eqb c "b" || ascii_eqb c "B" then nonempty ds && forallb (is_digit_in 2) ds
      else false
  | _ => false
  end.

Definition strNumericLiteral (l : list ascii) : bool :=
  nonDecimalIntegerLiteral l || strDecimalLiteral l.

(** The global [isNaN] applied to a string: [Number(s)] is [NaN] unless the
    trimmed text is empty (which converts to 0) or a numeric literal.  A
    literal too large for a binary64 converts to an infinity, not to [NaN]. *)
Definition isNaN (s : string) : bool :=
  match trim (chars s) with
  | [] => false
  | t => negb (strNumericLiteral t)
  end.

(** *** Rounding to binary64 *)

Definition number_eqb (a b : number) : bool :=
  match a, b with
  | NaN, NaN => true
  | Infinity x, Infinity y => Bool.eqb x y
  | NegZero, NegZero => true
  | Int x, Int y => x =? y
  | Frac s m e, Frac s' m' e' => Bool.eqb s s' && (m =? m')%positive && (e =? e')%positive
  | _, _ => false
  end.

Definition zero (neg : bool) : number := if neg then NegZero else Int 0.

Definition signed (neg : bool) (n : N) : number :=
  match n with
  | N0 => zero neg
  | _ => Int (if neg then - Z.of_N n else Z.of_N n)
  end.

(** [m / 10^e] in canonical form: common factors of ten leave first, at most
    [fuel] of them. *)
Fixpoint reduce_frac (fuel : nat) (neg : bool) (m : positive) (e : positive) : number :=
  match fuel with
  | O => Frac neg m e
  | S fuel' =>
      if (Z.pos m mod 10 =? 0) then
        match Z.to_pos (Z.pos m / 10), (Z.pos e - 1) with
        | m', Z.pos e' => reduce_frac fuel' neg m' e'
        | m', _ => Int (if neg then - Z.pos m' else Z.pos m')
        end
      else Frac neg m e
  end.

(** The canonical form of the decimal [(-1)^neg * m * 10^x], exactly. *)
Definition decimal (neg : bool) (m : N) (x : Z) : number :=
  match m with
  | N0 => zero neg
  | Npos p =>
      match x with
      | Z.neg e => reduce_frac (Pos.to_nat e) neg p e
      | _ => signed neg (m * Z.to_N (10 ^ x))
      end
  end.

(** The canonical form of the binary [(-1)^neg * m * 2^e], exactly: below
    the point, [m / 2^k] is [m * 5^k / 10^k]. *)
Definition dyadic (neg : bool) (m : Z) (e : Z) : number :=
  if 0 <=? e then signed neg (Z.to_N (m * 2 ^ e))
  else decimal neg (Z.to_N (m * 5 ^ (- e))) e.

(** The binary64 value nearest to the positive rational [p / q], ties to the
    even significand: 53 bits of significand, exponents from -1074, an
    infinity from [2^1024] on and a zero below half the least subnormal. *)
Definition to_binary64 (neg : bool) (p q : Z) : number :=
  let d := Z.log2 p - Z.log2 q in
  let reaches := if 0 <=? d then q * 2 ^ d <=? p else q <=? p * 2 ^ (- d) in
  let lg := if reaches then d else d - 1 in          (* floor (log2 (p / q)) *)
  let e := Z.max (lg - 52) (-1074) in
  let '(num, den) := if 0 <=? e then (p, q * 2 ^ e) else (p * 2 ^ (- e), q) in
  let m := num / den in
  let r := num mod den in
  let m' := if (den <? 2 * r) || ((den =? 2 * r) && Z.odd m) then m + 1 else m in
  if m' =? 0 then zero neg
  else if 1024 <=? Z.log2 m' + e then Infinity neg
  else dyadic neg m' e.

(** The number that the integer [n] converts to: itself up to [2^53], the
    nearest binary64 value beyond. *)
Definition of_integer (neg : bool) (n : N) : number :=
  if (n <=? 2 ^ 53)%N then signed neg n
  else to_binary64 neg (Z.of_N n) 1.

(** The number that the decimal [m * 10^x] converts to, [m] having [len]
    digits.  Decimals from [10^310] on are infinite and decimals below
    [10^-330] are zero whatever their digits. *)
Definition of_decimal (neg : bool) (m : N) (len : Z) (x : Z) : number :=
  match m with
  | N0 => zero neg
  | _ =>
      if 310 <? len + x then Infinity neg
      else if len + x <? -330 then zero neg
      else if 0 <=? x then to_binary64 neg (Z.of_N m * 10 ^ x) 1
      else to_binary64 neg (Z.of_N m) (10 ^ (- x))
  end.

(** *** [parseInt(string)] with no radix *)

Definition strip_sign (l : list ascii) : bool * list ascii :=
  match l with
  | "-"%char :: r => (true, r)
  | "+"%char :: r => (false, r)
  | _ => (false, l)
  end.

Definition parseInt_chars (l : list ascii) : number :=
  let '(neg, S1) := strip_sign (trim_start l) in
  let '(R, S2) :=
    match S1 with
    | "0"%char :: c :: r =>
        if ascii_eqb c "x" || ascii_eqb c "X" then (16%N, r) else (10%N, S1)
    | _ => (10%N, S1)
    end in
  match fst (span_digits R S2) with
  | [] => NaN
  | ds => of_integer neg (digits_value R ds)
  end.

(** *** [parseFloat(string)] *)

(** The exponent part that [parseFloat] accepts after the mantissa: [e] or
    [E], an optional sign and at least one digit; anything else is left
    unread and counts as no exponent. *)
Definition read_exponent (l : list ascii) : Z :=
  match l with
  | c :: r =>
      if ascii_eqb c "e" || ascii_eqb c "E" then
        let '(neg, r') := strip_sign r in
        match fst (span_digits 10 r') with
        | [] => 0
        | ds => let v := Z.of_N (digits_value 10 ds) in if neg then - v else v
        end
      else 0
  | [] => 0
  end.

(** The digits without the zeros they start with. *)
Fixpoint significant (ds : list N) : list N :=
  match ds with
  | 0%N :: r => significant r
  | _ => ds
  end.

Definition parseFloat_chars (l : list ascii) : number :=
  let '(neg, S1) := strip_sign (trim_start l) in
  match starts_with (chars "Infinity") S1 with
  | Some _ => Infinity neg
  | None =>
      let '(int, r1) := span_digits 10 S1 in
      let '(frac, r2) :=
        match r1 with
        | "."%char :: r => span_digits 10 r
        | _ => ([], r1)
        end in
      match int ++ frac with
      | [] => NaN
      | ds => of_decimal neg (digits_value 10 ds)
                         (Z.of_nat (length (significant ds)))
                         (read_exponent r2 - Z.of_nat (length frac))
      end
  end.

(** *** [Number::toString] and [ToString] *)

Definition digits_of_N (n : N) : list ascii :=
  chars (NilZero.string_of_uint (N.to_uint n)).

(** Scientific notation for the digits [ds] of a number whose decimal point
    sits after [n] digits. *)
Definition exponential (ds : list ascii) (n : Z) : list ascii :=
  match ds with
  | [] => []
  | d :: rest =>
      d :: (match rest with [] => [] | _ => "."%char :: rest end)
        ++ "e"%char :: (if n - 1 <? 0 then "-"%char else "+"%char)
        :: digits_of_N (Z.to_N (Z.abs (n - 1)))
  end.

(** The text of the positive number with significant digits [ds] and the
    decimal point after [n] of them: [n] may lie past the digits, where zeros
    fill up, or before them. *)
Definition positional (ds : list ascii) (n : Z) : list ascii :=
  let k := Z.of_nat (length ds) in
  if (k <=? n) && (n <=? 21) then ds ++ repeat "0"%char (Z.to_nat (n - k))
  else if (0 <? n) && (n <=? 21) then
    take (Z.to_nat n) ds ++ "."%char :: drop (Z.to_nat n) ds
  else if (-6 <? n) && (n <=? 0) then
    "0"%char :: "."%char :: repeat "0"%char (Z.to_nat (- n)) ++ ds
  else exponential ds n.

(** The least [n] with [p / q < 10^n]. *)
Definition magnitude (p q : Z) : Z :=
  let l := Z.of_nat (length (digits_of_N (Z.to_N p)))
           - Z.of_nat (length (digits_of_N (Z.to_N q))) in
  let reaches := if 0 <=? l then q * 10 ^ l <=? p else q <=? p * 10 ^ (- l) in
  if reaches then l + 1 else l.

(** The decimals of [k] digits next to [p / q], whose decimal point sits
    after [n] digits: the one below and the one above, each with its own
    point, and whether [p / q] is nearer the lower (-1), the upper (1) or
    neither (0). *)
Definition neighbours (p q n k : Z) : (Z * Z) * (Z * Z) * Z :=
  let '(a, b) := if 0 <=? k - n then (p * 10 ^ (k - n), q) else (p, q * 10 ^ (n - k)) in
  let s := a / b in
  let r := a mod b in
  let above := if s + 1 =? 10 ^ k then (10 ^ (k - 1), n + 1) else (s + 1, n) in
  ((s, n), above, if 2 * r <? b then -1 else if b <? 2 * r then 1 else 0).

(** Whether the decimal [s * 10^(n-k)] converts to [x]. *)
Definition reads_as (x : number) (k : Z) (c : Z * Z) : bool :=
  let '(s, n) := c in
  (0 <? s) &&
  number_eqb x (if 0 <=? n - k then to_binary64 false (s * 10 ^ (n - k)) 1
                else to_binary64 false s (10 ^ (k - n))).

(** The shortest decimal that converts to the positive [x = p / q]: the
    fewest digits [k], starting from [k0] and trying [fuel] lengths, and among
    the decimals of that length the nearest to [x], the even one on a tie. *)
Fixpoint shortest (fuel : nat) (x : number) (p q n k : Z) : Z * Z :=
  let '(below, above, side) := neighbours p q n k in
  match fuel with
  | O => below
  | S fuel' =>
      match reads_as x k below, reads_as x k above with
      | true, true =>
          if side <? 0 then below
          else if 0 <? side then above
          else if Z.even (fst below) then below else above
      | true, false => below
      | false, true => above
      | false, false => shortest fuel' x p q n (k + 1)
      end
  end.

(** The text of the positive [x = p / q]; seventeen digits always suffice. *)
Definition shortest_text (x : number) (p q : Z) : list ascii :=
  let '(s, n) := shortest 17 x p q (magnitude p q) 1 in
  positional (digits_of_N (Z.to_N s)) n.

Definition with_sign (neg : bool) (l : list ascii) : list ascii :=
  if neg then "-"%char :: l else l.

(** [Number::toString(x)].  An integer up to [2^53] prints all its digits,
    which is what the shortest decimal comes to for it. *)
Definition NumberToString (x : number) : string :=
  match x with
  | NaN => "NaN"
  | Infinity neg => str (with_sign neg (chars "Infinity"))
  | NegZero => "0"
  | Int z =>
      let n := Z.to_N (Z.abs z) in
      str (with_sign (z <? 0)
             (if (n <=? 2 ^ 53)%N then digits_of_N n
              else shortest_text (Int (Z.abs z)) (Z.abs z) 1))
  | Frac neg m e =>
      str (with_sign neg (shortest_text (Frac false m e) (Z.pos m) (10 ^ Z.pos e)))
  end.

Definition ToString (v : value) : string :=
  match v with
  | VUndefined => "undefined"
  | VNull => "null"
  | VBool true => "true"
  | VBool false => "false"
  | VNumber n => NumberToString n
  | VString s => s
  | VObject s => s
  end.

(** [parseInt(v)] and [parseFloat(v)]: the argument goes through [ToString]. *)
Definition parseInt (v : value) : number := parseInt_chars (chars (ToString v)).
Definition parseFloat (v : value) : number := parseFloat_chars (chars (ToString v)).

End JS.

Import JS.

(* ===================================================================== *)
(** ** The environment of the handlers *)
(* ===================================================================== *)

(** A row of the [car] table, as Prisma returns it. *)
Module Car.
Record t : Type := mk {
  id : Z;
  name : string;
  brand : string;
  model : string;
  year : Z;
  price : number;
  description : string;
  imageName : option string
}.
End Car.

(** The [data] object a handler passes to [prisma.car.create] and
    [prisma.car.update]: field values as the handler computed them, not yet
    checked against the schema. *)
Module Data.
Record t : Type := mk {
  name : value;
  brand : value;
  model : value;
  year : number;
  description : value;
  price : number;
  imageName : option string
}.
End Data.

Module Env.

(** What a handler can throw: the two errors of the Prisma client, and the
    [ReferenceError] of JavaScript for a name that is not defined. *)
Inductive error : Type :=
  | PrismaValidationError
  | PrismaRecordNotFound
  | ReferenceError.

(** What a handler asks of the world, in the order it asks. *)
Inductive Event : Type :=
  | FindMany
  | FindUnique (id : number)
  | Create (data : Data.t)
  | Update (id : number) (data : Data.t)
  | Delete (id : number)
  | WriteFile (path : string)
  | Unlink (path : string).

Definition is_record_store_event (e : Event) : bool :=
  match e with
  | FindMany | FindUnique _ | Create _ | Update _ _ | Delete _ => true
  | WriteFile _ | Unlink _ => false
  end.

(** An [fs.unlink] that was started and whose callback has not run yet:
    the path, and the text its callback prints when handed an error. *)
Record PendingUnlink : Type := {
  unlink_path : string;
  unlink_message : string
}.

Record World : Type := {
  db : gmap Z Car.t;          (* the car table, by primary key *)
  next_id : Z;                (* the next autoincrement key *)
  files : gset string;        (* the files on disk, by path *)
  pending : list PendingUnlink; (* file operations in flight *)
  console : list string;      (* what console.error printed *)
  trace : list Event          (* the requests made so far, oldest first *)
}.

Definition set_db (f : gmap Z Car.t -> gmap Z Car.t) (w : World) : World :=
  {| db := f (db w); next_id := next_id w; files := files w;
     pending := pending w; console := console w; trace := trace w |}.
Definition set_next_id (n : Z) (w : World) : World :=
  {| db := db w; next_id := n; files := files w;
     pending := pending w; console := console w; trace := trace w |}.
Definition set_files (f : gset string -> gset string) (w : World) : World :=
  {| db := db w; next_id := next_id w; files := f (files w);
     pending := pending w; console := console w; trace := trace w |}.
Definition set_pending (p : list PendingUnlink) (w : World) : World :=
  {| db := db w; next_id := next_id w; files := files w;
     pending := p; console := console w; trace := trace w |}.
Definition set_console (c : list string) (w : World) : World :=
  {| db := db w; next_id := next_id w; files := files w;
     pending := pending w; console := c; trace := trace w |}.
Definition record (e : Event) (w : World) : World :=
  {| db := db w; next_id := next_id w; files := files w;
     pending := pending w; console := console w; trace := trace w ++ [e] |}.

(** *** The effect monad: state passing with exceptions

    An [await]ed call that rejects throws out of the [async] handler; no
    handler of the router catches anything. *)

Inductive result (A : Type) : Type :=
  | Ok (a : A)
  | Throw (e : error).
Arguments Ok {A} a.
Arguments Throw {A} e.

Definition M (A : Type) : Type := World -> result A * World.

Definition ret {A} (a : A) : M A := fun w => (Ok a, w).
Definition throw {A} (e : error) : M A := fun w => (Throw e, w).
Definition bind {A B} (m : M A) (k : A -> M B) : M B :=
  fun w => match m w with
           | (Ok a, w') => k a w'
           | (Throw e, w') => (Throw e, w')
           end.
Definition modify (f : World -> World) : M unit := fun w => (Ok tt, f w).
Definition get {A} (f : World -> A) : M A := fun w => (Ok (f w), w).

End Env.

Import Env.

Declare Scope js_scope.
Delimit Scope js_scope with js.
Notation "'await' x <- m ; k" := (bind m (fun x => k))
  (at level 10, x name, m at level 100, k at level 200) : js_scope.
Notation "'run' m ; k" := (bind m (fun _ => k))
  (at level 10, m at level 100, k at level 200) : js_scope.

(** *** The record store

    The Prisma client is a library, not code of the router.  Its five calls
    are modelled on an in-memory table after the specification's account of
    the record store: look-up by key, creation under a generated key, update
    and deletion of an existing row; ill-typed arguments throw. *)

Module Prisma.
Local Open Scope js_scope.

(** Modelled from the spec: the Prisma schema of the [car] model is not among
    the sources.  Following the data model of the specification, [name],
    [brand], [model] and [description] are text, [year] is an integer, [price]
    is a float, [imageName] is nullable text and [id] is an integer key that
    the store generates.  A value of another type, [NaN] and the infinities
    included, is refused. *)
Definition text (v : value) : option string :=
  match v with VString s => Some s | _ => None end.

(** An integer column, and the key of a [where] clause, takes an integer. *)
Definition integer (n : number) : option Z :=
  match n with Int z => Some z | NegZero => Some 0 | _ => None end.

(** A float column takes any finite number. *)
Definition float (n : number) : option number :=
  match n with NaN | Infinity _ => None | _ => Some n end.

(** Modelled from the spec: the columns of the [car] model, whose Prisma
    schema is not among the sources.  The row that [data] describes under key
    [i], when every field is of its column's type. *)
Definition row (i : Z) (d : Data.t) : option Car.t :=
  match text (Data.name d), text (Data.brand d), text (Data.model d),
        integer (Data.year d), float (Data.price d), text (Data.description d) with
  | Some n, Some b, Some m, Some y, Some p, Some ds =>
      Some (Car.mk i n b m y p ds (Data.imageName d))
  | _, _, _, _, _, _ => None
  end.

(** [prisma.car.findMany()]. *)
Definition findMany : M (list Car.t) :=
  run modify (record FindMany);
  get (fun w => (map_to_list (db w)).*2).

(** [prisma.car.findUnique({ where: { id } })]: the row or [null]. *)
Definition findUnique (id : number) : M (option Car.t) :=
  run modify (record (FindUnique id));
  match integer id with
  | None => throw PrismaValidationError
  | Some i => get (fun w => db w !! i)
  end.

(** [prisma.car.create({ data })]: the new row under a fresh key. *)
Definition create (data : Data.t) : M Car.t :=
  run modify (record (Create data));
  await i <- get next_id;
  match row i data with
  | None => throw PrismaValidationError
  | Some c =>
      run modify (fun w => set_next_id (i + 1) (set_db (insert i c) w));
      ret c
  end.

(** [prisma.car.update({ where: { id }, data })]: the row after the write. *)
Definition update (id : number) (data : Data.t) : M Car.t :=
  run modify (record (Update id data));
  match integer id with
  | None => throw PrismaValidationError
  | Some i =>
      await old <- get (fun w => db w !! i);
      match old, row i data with
      | None, _ => throw PrismaRecordNotFound
      | Some _, None => throw PrismaValidationError
      | Some _, Some c => run modify (set_db (insert i c)); ret c
      end
  end.

(** [prisma.car.delete({ where: { id } })]: the row that was removed. *)
Definition delete (id : number) : M Car.t :=
  run modify (record (Delete id));
  match integer id with
  | None => throw PrismaValidationError
  | Some i =>
      await old <- get (fun w => db w !! i);
      match old with
      | None => throw PrismaRecordNotFound
      | Some c => run modify (set_db (base.delete i)); ret c
      end
  end.

End Prisma.

(** *** The image directory *)

Module Fs.
Local Open Scope js_scope.

(** The path [multer] stores an upload under: its destination
    ['public/images/'] and then the file name. *)
Definition image_path (imageName : string) : string :=
  String.append "public/images/" imageName.

(** [fs.unlink(path, callback)]: starts the removal and returns at once; the
    callback runs from the event loop, see [run_pending]. *)
Definition unlink (path message : string) : M unit :=
  modify (fun w =>
    record (Unlink path)
      (set_pending (pending w ++ [{| unlink_path := path; unlink_message := message |}]) w)).

(** One removal completes: the file goes, or the callback gets an error and
    prints its message. *)
Definition complete (u : PendingUnlink) (w : World) : World :=
  if bool_decide (unlink_path u ∈ files w)
  then set_files (fun fs => fs ∖ {[ unlink_path u ]}) w
  else set_console (console w ++ [unlink_message u]) w.

(** The event loop completes every removal in flight. *)
Definition run_pending (w : World) : World :=
  fold_left (fun w u => complete u w) (pending w) (set_pending [] w).

End Fs.

(* ===================================================================== *)
(** ** The router: [src/routes/cars.js] *)
(* ===================================================================== *)

(** The file part of a multipart request, with the two readings of the
    environment that name it on disk: [now] is [Date.now()] and [random1000]
    is [Math.round(Math.random() * 1000)], an integer from 0 to 1000. *)
Record Upload : Type := {
  originalname : string;
  now : N;
  random1000 : N
}.

(** [req.body], destructured. *)
Module Body.
Record t : Type := mk {
  name : value;
  brand : value;
  model : value;
  year : value;
  price : value;
  description : value
}.
End Body.

Record Request : Type := {
  params_id : string;          (* req.params.id *)
  body : Body.t;               (* req.body *)
  image : option Upload        (* the part named 'image', if any *)
}.

Inductive Payload : Type :=
  | Json (car : Car.t)
  | JsonArray (cars : list Car.t)
  | Text (message : string).

Record Response : Type := {
  status : Z;
  payload : Payload
}.

Module Cars.
Local Open Scope js_scope.

(** [res.json(x)], [res.send(text)] and [res.status(code).send(text)]. *)
Definition json (car : Car.t) : Response := {| status := 200; payload := Json car |}.
Definition json_array (cars : list Car.t) : Response :=
  {| status := 200; payload := JsonArray cars |}.
Definition send (code : Z) (message : string) : Response :=
  {| status := code; payload := Text message |}.

(** [text.split(sep)]. *)
Fixpoint split (sep : ascii) (l : list ascii) : list (list ascii) :=
  match l with
  | [] => [[]]
  | c :: r =>
      if ascii_eqb c sep then [] :: split sep r
      else match split sep r with
           | h :: t => (c :: h) :: t
           | [] => [[c]]
           end
  end.

(** [parts.pop()] of a [split] result, which is never empty. *)
Definition pop (parts : list (list ascii)) : list ascii := List.last parts [].

(** The [filename] callback of the disk storage: a name that is unique for
    practical purposes, with the extension of the original. *)
Definition filename (file : Upload) : string :=
  let ext := pop (split "." (chars (originalname file))) in
  let uniqueFilename :=
    chars (NumberToString (Int (Z.of_N (now file)))) ++ "-"%char
      :: chars (NumberToString (Int (Z.of_N (random1000 file)))) ++ "."%char :: ext in
  str uniqueFilename.

(** [upload.single('image')]: stores the file, if the request has one, and
    leaves its new name in [req.file.filename]. *)
Definition upload_single (part : option Upload) : M (option string) :=
  match part with
  | None => ret None
  | Some file =>
      let path := Fs.image_path (filename file) in
      run modify (fun w => record (WriteFile path) (set_files (fun fs => fs ∪ {[ path ]}) w));
      ret (Some (filename file))
  end.

(** [__dirname].  The file is an ES module ([import], [export default]),
    where this name is not defined: evaluating it throws. *)
Definition __dirname : M string := throw ReferenceError.

(** The segments of a path between its slashes, without the empty ones and
    the dots, a [..] taking back the segment before it; at the root of an
    absolute path a [..] goes nowhere. *)
Fixpoint normalize (absolute : bool) (segments done : list (list ascii))
  : list (list ascii) :=
  match segments with
  | [] => rev done
  | seg :: rest =>
      match seg, done with
      | [], _ => normalize absolute rest done
      | ["."%char], _ => normalize absolute rest done
      | ["."%char; "."%char], [] =>
          normalize absolute rest (if absolute then [] else [seg])
      | ["."%char; "."%char], ["."%char; "."%char] :: _ =>
          normalize absolute rest (seg :: done)
      | ["."%char; "."%char], _ :: before => normalize absolute rest before
      | _, _ => normalize absolute rest (seg :: done)
      end
  end.

Fixpoint join (sep : ascii) (parts : list (list ascii)) : list ascii :=
  match parts with
  | [] => []
  | [p] => p
  | p :: rest => p ++ sep :: join sep rest
  end.

(** [path.join(...paths)] for POSIX paths: the non-empty paths joined by
    slashes and normalized, a slash at either end kept; the empty path is the
    dot. *)
Definition path_join (paths : list string) : string :=
  let joined := join "/" (List.filter nonempty (List.map chars paths)) in
  let absolute := match joined with "/"%char :: _ => true | _ => false end in
  let trailing := match rev joined with "/"%char :: _ :: _ => true | _ => false end in
  let segments := normalize absolute (split "/" joined) [] in
  let path : list ascii :=
    List.app (if absolute then ["/"%char] else [])
      (List.app (join "/" segments)
                (if trailing && nonempty segments then ["/"%char] else [])) in
  match path with
  | [] => "."
  | _ => str path
  end.

(** A non-null, non-empty name: what [if (car.imageName)] tests. *)
Definition truthy_name (imageName : option string) : option string :=
  match imageName with
  | Some s => if String.eqb s EmptyString then None else Some s
  | None => None
  end.

(** GET /all *)
Definition get_all : M Response :=
  await cars <- Prisma.findMany;
  ret (json_array cars).

(** GET /read/:id *)
Definition get_read (req : Request) : M Response :=
  let id := params_id req in
  if isNaN id then ret (send 400 "Invalid car id.")
  else
    await car <- Prisma.findUnique (parseInt (VString id));
    match car with
    | Some car => ret (json car)
    | None => ret (send 404 "Car not found.")
    end.

(** POST /create, after the upload middleware *)
Definition create_handler (req : Request) (file : option string) : M Response :=
  let name := Body.name (body req) in
  let brand := Body.brand (body req) in
  let model := Body.model (body req) in
  let year := Body.year (body req) in
  let price := Body.price (body req) in
  let description := Body.description (body req) in
  let filename := file in
  if negb (ToBoolean name) || negb (ToBoolean brand) || negb (ToBoolean model)
     || negb (ToBoolean year) || negb (ToBoolean price)
  then ret (send 400 "Required fields must have a value.")
  else
    await car <- Prisma.create
      {| Data.name := name;
         Data.brand := brand;
         Data.model := model;
         Data.year := parseInt year;
         Data.description := or_else description (VString "");
         Data.price := parseFloat price;
         Data.imageName := filename |};
    ret (json car).

Definition post_create (req : Request) : M Response :=
  await file <- upload_single (image req);
  create_handler req file.

(** The [updatedData] object of the update handler. *)
Definition updatedData (req : Request) (file : option string) (car : Car.t) : Data.t :=
  let name := Body.name (body req) in
  let brand := Body.brand (body req) in
  let model := Body.model (body req) in
  let year := Body.year (body req) in
  let price := Body.price (body req) in
  let description := Body.description (body req) in
  {| Data.name := or_else name (VString (Car.name car));
     Data.brand := or_else brand (VString (Car.brand car));
     Data.model := or_else model (VString (Car.model car));
     Data.year := if ToBoolean year then parseInt year else Int (Car.year car);
     Data.price := if ToBoolean price then parseFloat price else Car.price car;
     Data.description := or_else description (VString (Car.description car));
     Data.imageName := match file with
                       | Some filename => Some filename
                       | None => Car.imageName car
                       end |}.

(** PUT /update/:id, after the upload middleware *)
Definition update_handler (req : Request) (file : option string) : M Response :=
  let id := params_id req in
  if isNaN id then ret (send 400 "Invalid car id.")
  else
    await car <- Prisma.findUnique (parseInt (VString id));
    match car with
    | None => ret (send 404 "Car not found.")
    | Some car =>
        let updatedData := updatedData req file car in
        run match file, truthy_name (Car.imageName car) with
            | Some _, Some imageName =>
                await dir <- __dirname;
                let oldImagePath := path_join [dir; ".."; "public"; "images"; imageName] in
                Fs.unlink oldImagePath "Failed to delete old image:"
            | _, _ => ret tt
            end;
        await updatedCar <- Prisma.update (parseInt (VString id)) updatedData;
        ret (json updatedCar)
    end.

Definition put_update (req : Request) : M Response :=
  await file <- upload_single (image req);
  update_handler req file.

(** DELETE /delete/:id *)
Definition delete_delete (req : Request) : M Response :=
  let id := params_id req in
  if isNaN id then ret (send 400 "Invalid car id.")
  else
    await car <- Prisma.findUnique (parseInt (VString id));
    match car with
    | None => ret (send 404 "Car not found.")
    | Some car =>
        run Prisma.delete (parseInt (VString id));
        run match truthy_name (Car.imageName car) with
            | Some imageName =>
                await dir <- __dirname;
                let imagePath := path_join [dir; ".."; "public"; "images"; imageName] in
                Fs.unlink imagePath "Failed to delete image:"
            | None => ret tt
            end;
        ret (send 200 "Car deleted successfully.")
    end.

End Cars.

Import Cars.

(* ===================================================================== *)
(** ** Observations on a run *)
(* ===================================================================== *)

(** The requests a run from [w] to [w'] added to the trace. *)
Definition added (w w' : World) : list Event :=
  drop (length (trace w)) (trace w').

(** Those of them that went to the record store. *)
Definition store_accesses (w w' : World) : list Event :=
  List.filter is_record_store_event (added w w').

(** The fields that POST /create requires. *)
Definition required (b : Body.t) : list value :=
  [Body.name b; Body.brand b; Body.model b; Body.year b; Body.price b].

(** A text of decimal digits only, and the integer it writes. *)
Definition decimal_digits (s : string) : option Z :=
  let l := chars s in
  if nonempty l && forallb is_digit l
  then Some (Z.of_N (digits_value 10 (fst (span_digits 10 l))))
  else None.

(** Every stored image name is the name of a file: never the empty text.
    The names come from [filename], which cannot produce it. *)
Definition names_ok (w : World) : Prop :=
  forall i car, db w !! i = Some car -> Car.imageName car <> Some EmptyString.

(** The merge of one field on update: [new] is what [read] makes of the
    submitted [input] when that is truthy, and the stored [old] otherwise. *)
Definition merged {A} (read : value -> option A) (input : value) (old new : A) : Prop :=
  if ToBoolean input then read input = Some new else new = old.

(** A body with [price] and nothing else. *)
Definition only_price (price : value) : Body.t :=
  Body.mk VUndefined VUndefined VUndefined VUndefined price VUndefined.

(** Every row carries its key as [id], and the keys in use are below the
    next one the store will hand out. *)
Definition keys_ok (w : World) : Prop :=
  forall i car, db w !! i = Some car -> Car.id car = i /\ i < next_id w.

(** A text without a dot. *)
Definition dotless (l : list ascii) : bool :=
  forallb (fun c => negb (ascii_eqb c ".")) l.

(** *** Sample data *)

Definition empty_world : World :=
  {| db := ∅; next_id := 1; files := ∅; pending := []; console := []; trace := [] |}.

Definition no_fields : Body.t :=
  Body.mk VUndefined VUndefined VUndefined VUndefined VUndefined VUndefined.

Definition tesla_fields : Body.t :=
  Body.mk (VString "Model S") (VString "Tesla") (VString "S")
          (VString "2023") (VString "79999.99") VUndefined.

Definition front_png : Upload :=
  {| originalname := "front.png"; now := 1700000000000; random1000 := 417 |}.

Definition rear_jpg : Upload :=
  {| originalname := "rear.jpg"; now := 1700000360000; random1000 := 52 |}.

Definition request (id : string) (b : Body.t) (img : option Upload) : Request :=
  {| params_id := id; body := b; image := img |}.

(** The world after one car, with an image, was created in [empty_world]. *)
Definition one_car : World :=
  snd (post_create (request "" tesla_fields (Some front_png)) empty_world).

(** The binary64 value nearest to 79999.99, which prints as 79999.99. *)
Definition tesla_price : number :=
  Frac false 79999990000000005238689482212066650390625 36.

Definition tesla : Car.t :=
  Car.mk 1 "Model S" "Tesla" "S" 2023 tesla_price ""
         (Some "1700000000000-417.png").

(** The world after one car, without an image, was created in [empty_world]. *)
Definition plain_car : World :=
  snd (post_create (request "" tesla_fields None) empty_world).

Definition plain_tesla : Car.t :=
  Car.mk 1 "Model S" "Tesla" "S" 2023 tesla_price "" None.

(** *** Proof tools *)

(** The built-ins stay folded under [simpl]; proofs unfold them by name. *)
Arguments parseInt : simpl never.
Arguments parseFloat : simpl never.
Arguments isNaN : simpl never.
Arguments NumberToString : simpl never.
Arguments filename : simpl never.
Arguments Fs.image_path : simpl never.

(** Unfolds one layer of the effect monad. *)
Ltac monad :=
  unfold bind, ret, throw, modify, get; cbn beta iota delta [fst snd].

(** Brings a goal on the trace of a run to the form [trace w ++ es]. *)
Ltac trace_of_run :=
  simpl; rewrite <- ?app_assoc; simpl; reflexivity.

(* ===================================================================== *)
(** ** Facts about the built-ins *)
(* ===================================================================== *)

Section Digits.

Local Open Scope N_scope.

(** A character is one of the ten digits exactly when [is_digit] accepts it. *)
Lemma is_digit_cases (c : ascii) :
  is_digit c = true ->
  c = "0"%char \/ c = "1"%char \/ c = "2"%char \/ c = "3"%char \/ c = "4"%char \/
  c = "5"%char \/ c = "6"%char \/ c = "7"%char \/ c = "8"%char \/ c = "9"%char.
Proof.
  destruct c as [[] [] [] [] [] [] [] []]; vm_compute; intros H;
    try discriminate H; tauto.
Qed.

Lemma is_digit_digit_in (c : ascii) :
  is_digit c = true -> exists v, digit_in 10 c = Some v.
Proof.
  unfold is_digit, is_digit_in. destruct (digit_in 10 c); [eauto | discriminate].
Qed.

(** A text of digits is read whole. *)
Lemma span_digits_all (l : list ascii) :
  forallb is_digit l = true ->
  snd (span_digits 10 l) = [] /\ length (fst (span_digits 10 l)) = length l.
Proof.
  induction l as [|c r IH]; simpl; [auto|].
  intros [Hc Hr]%andb_prop.
  destruct (is_digit_digit_in c Hc) as [v ->].
  destruct (span_digits 10 r) as [ds rest]; simpl in *.
  destruct (IH Hr) as [-> ->]. auto.
Qed.

Lemma forallb_rev {A} (p : A -> bool) (l : list A) :
  forallb p (rev l) = forallb p l.
Proof.
  induction l as [|a l IH]; simpl; [reflexivity|].
  rewrite forallb_app, IH. simpl. rewrite andb_true_r. apply andb_comm.
Qed.

(** A digit is no white space, and no first or last byte of one. *)
Lemma digit_not_white (c : ascii) :
  is_digit c = true ->
  is_white c = false /\
  (forall b, is_white2 c b = false /\ is_white2 b c = false) /\
  (forall a b, is_white3 c a b = false /\ is_white3 a b c = false).
Proof.
  intros Hc.
  destruct (is_digit_cases c Hc) as [H|[H|[H|[H|[H|[H|[H|[H|[H|H]]]]]]]]]; subst c;
    (split; [reflexivity|]); (split; [intros b | intros a b]); split;
    try reflexivity;
    unfold is_white2, is_white3; cbn;
    repeat (rewrite ?andb_false_r, ?orb_false_r; cbn); reflexivity.
Qed.

Lemma trim_start_digits (l : list ascii) :
  forallb is_digit l = true -> trim_start l = l.
Proof.
  destruct l as [|c r]; simpl; [reflexivity|].
  intros [Hc _]%andb_prop.
  destruct (digit_not_white c Hc) as (-> & H2 & H3).
  destruct r as [|b r2]; [reflexivity|]. rewrite (proj1 (H2 b)).
  destruct r2 as [|c3 r3]; [reflexivity|]. rewrite (proj1 (H3 b c3)). reflexivity.
Qed.

Lemma trim_start_rev_digits (l : list ascii) :
  forallb is_digit l = true -> trim_start_rev l = l.
Proof.
  destruct l as [|c r]; simpl; [reflexivity|].
  intros [Hc _]%andb_prop.
  destruct (digit_not_white c Hc) as (-> & H2 & H3).
  destruct r as [|b r2]; [reflexivity|]. rewrite (proj2 (H2 b)).
  destruct r2 as [|a r3]; [reflexivity|]. rewrite (proj2 (H3 a b)). reflexivity.
Qed.

Lemma trim_digits (l : list ascii) :
  forallb is_digit l = true -> trim l = l.
Proof.
  intros H. unfold trim. rewrite (trim_start_digits l H).
  rewrite trim_start_rev_digits by (rewrite forallb_rev; exact H).
  apply rev_involutive.
Qed.

(** A text of digits is a numeric literal. *)
Lemma strNumericLiteral_digits (l : list ascii) :
  nonempty l && forallb is_digit l = true -> strNumericLiteral l = true.
Proof.
  intros [Hne Hall]%andb_prop.
  unfold strNumericLiteral. apply orb_true_iff. right.
  destruct (span_digits_all l Hall) as [Hrest Hlen].
  destruct l as [|c r]; [discriminate Hne|].
  assert (Hint : nonempty (fst (span_digits 10 (c :: r))) = true).
  { destruct (fst (span_digits 10 (c :: r))); [discriminate Hlen | reflexivity]. }
  assert (Hun : strUnsignedDecimalLiteral (c :: r) = true).
  { unfold strUnsignedDecimalLiteral.
    destruct (span_digits 10 (c :: r)) as [int r1]; simpl in Hrest, Hint.
    subst r1. rewrite Hint.
    destruct (starts_with (chars "Infinity") (c :: r)) as [[|? ?]|]; reflexivity. }
  simpl in Hall. apply andb_prop in Hall as [Hc _].
  destruct (is_digit_cases c Hc) as [H|[H|[H|[H|[H|[H|[H|[H|[H|H]]]]]]]]];
    subst c; exact Hun.
Qed.

Lemma chars_str (l : list ascii) : chars (str l) = l.
Proof. apply list_ascii_of_string_of_list_ascii. Qed.

(** [isNaN] passes a text of digits. *)
Lemma isNaN_digits (s : string) :
  nonempty (chars s) && forallb is_digit (chars s) = true -> isNaN s = false.
Proof.
  intros H. unfold isNaN.
  pose proof (strNumericLiteral_digits _ H) as Hnum.
  apply andb_prop in H as [Hne Hall].
  rewrite (trim_digits _ Hall).
  destruct (chars s); [discriminate Hne | rewrite Hnum; reflexivity].
Qed.

Lemma signed_false (n : N) : signed false n = Int (Z.of_N n).
Proof. destruct n; reflexivity. Qed.

Lemma signed_integer (neg : bool) (n : N) :
  exists z, Prisma.integer (signed neg n) = Some z.
Proof. destruct n, neg; simpl; eauto. Qed.

Local Open Scope Z_scope.

(** An integer up to [2^53] converts to itself. *)
Lemma of_integer_safe (n : N) :
  (n <= 2 ^ 53)%N -> of_integer false n = Int (Z.of_N n).
Proof.
  intros Hn. unfold of_integer.
  replace (n <=? 2 ^ 53)%N with true by (symmetry; apply N.leb_le; exact Hn).
  apply signed_false.
Qed.

(** An integer converts to an integer or, when it is too large, to an
    infinity. *)
Lemma of_integer_cases (neg : bool) (n : N) :
  of_integer neg n = Infinity neg \/
  exists z, Prisma.integer (of_integer neg n) = Some z.
Proof.
  unfold of_integer. destruct (n <=? 2 ^ 53)%N eqn:E; [right; apply signed_integer|].
  apply N.leb_gt in E. change (2 ^ 53)%N with 9007199254740992%N in E.
  assert (Hd : 53 <= Z.log2 (Z.of_N n)).
  { apply Z.log2_le_pow2; [lia|]. change (2 ^ 53) with 9007199254740992. lia. }
  unfold to_binary64. change (Z.log2 1) with 0. rewrite Z.sub_0_r.
  match goal with |- context [Z.max (?lg - 52) (-1074)] =>
    assert (He : 0 <= Z.max (lg - 52) (-1074))
      by (destruct (if 0 <=? Z.log2 (Z.of_N n) then _ else _); lia);
    set (e := Z.max (lg - 52) (-1074)) in *
  end.
  unfold dyadic.
  replace (0 <=? e) with true by (symmetry; apply Z.leb_le; exact He).
  cbv beta iota zeta.
  match goal with |- context [if ?c =? 0 then _ else _] =>
    destruct (c =? 0); [right; exists 0; destruct neg; reflexivity|] end.
  match goal with |- context [if 1024 <=? ?c then _ else _] =>
    destruct (1024 <=? c); [left; reflexivity|] end.
  right. apply signed_integer.
Qed.

(** [parseInt] gives an integer, an infinity or [NaN], never a fraction. *)
Lemma parseInt_integer_or_NaN (v : value) :
  parseInt v = NaN \/ (exists neg, parseInt v = Infinity neg) \/
  exists z, Prisma.integer (parseInt v) = Some z.
Proof.
  unfold parseInt, parseInt_chars.
  destruct (strip_sign _) as [neg S1].
  match goal with |- context [let '(R, S2) := ?e in _] => destruct e as [R S2] end.
  destruct (fst (span_digits R S2)) as [|d ds]; [left; reflexivity | right].
  destruct (of_integer_cases neg (digits_value R (d :: ds))) as [H|H]; [left | right];
    eauto.
Qed.

(** [parseInt] reads a text of digits in base ten, whole. *)
Lemma parseInt_chars_digits (l : list ascii) :
  nonempty l && forallb is_digit l = true ->
  parseInt_chars l = of_integer false (digits_value 10 (fst (span_digits 10 l))).
Proof.
  intros [Hne Hall]%andb_prop.
  unfold parseInt_chars. rewrite (trim_start_digits l Hall).
  destruct (span_digits_all l Hall) as [_ Hlen].
  destruct l as [|c r]; [discriminate Hne|].
  assert (Hgo : match fst (span_digits 10 (c :: r)) with
                | [] => NaN
                | ds => of_integer false (digits_value 10 ds)
                end = of_integer false (digits_value 10 (fst (span_digits 10 (c :: r))))).
  { destruct (fst (span_digits 10 (c :: r))) eqn:E; [discriminate Hlen | reflexivity]. }
  simpl in Hall. apply andb_prop in Hall as [Hc Hr].
  destruct (is_digit_cases c Hc) as [H|[H|[H|[H|[H|[H|[H|[H|[H|H]]]]]]]]];
    subst c; try exact Hgo.
  (* a leading zero: the next character is a digit, so not an x *)
  destruct r as [|c' r']; [exact Hgo|].
  simpl in Hr. apply andb_prop in Hr as [Hc' _].
  destruct (is_digit_cases c' Hc') as [H|[H|[H|[H|[H|[H|[H|[H|[H|H]]]]]]]]];
    subst c'; exact Hgo.
Qed.

(** A text of decimal digits passes [isNaN], and [parseInt] gives the number
    its integer converts to: the integer itself up to [2^53]. *)
Lemma parseInt_decimal_digits (s : string) (n : Z) :
  decimal_digits s = Some n ->
  isNaN s = false /\
  parseInt (VString s) = of_integer false (Z.to_N n) /\
  (n <= 2 ^ 53 -> parseInt (VString s) = Int n).
Proof.
  unfold decimal_digits.
  destruct (nonempty (chars s) && forallb is_digit (chars s)) eqn:H; [|discriminate].
  intros [= <-]. split; [apply isNaN_digits; exact H|].
  assert (E : parseInt (VString s)
              = of_integer false (digits_value 10 (fst (span_digits 10 (chars s))))).
  { unfold parseInt. simpl. apply parseInt_chars_digits; exact H. }
  rewrite N2Z.id. split; [exact E|].
  intros Hn. rewrite E. apply of_integer_safe.
  change (2 ^ 53)%N with 9007199254740992%N. change (2 ^ 53) with 9007199254740992 in Hn.
  lia.
Qed.

Local Open Scope N_scope.

(** *** The decimal text of a natural number *)

Lemma uint_digits (d : Decimal.uint) :
  forallb is_digit (chars (NilEmpty.string_of_uint d)) = true.
Proof. induction d; simpl; auto. Qed.

Lemma uint_value (d : Decimal.uint) :
  forall acc : N,
    fold_left (fun a v => a * 10 + v)
              (fst (span_digits 10 (chars (NilEmpty.string_of_uint d)))) acc
    = match acc with
      | N0 => Pos.of_uint d
      | Npos a => Npos (Pos.of_uint_acc d a)
      end.
Proof.
  induction d; intros acc; simpl;
    try (destruct acc; reflexivity);
    match goal with
    | |- context [span_digits 10 (chars (NilEmpty.string_of_uint ?d'))] =>
        change (chars (NilEmpty.string_of_uint d')) with
          (list_ascii_of_string (NilEmpty.string_of_uint d')) in *;
        destruct (span_digits 10 (list_ascii_of_string (NilEmpty.string_of_uint d')))
          as [ds rest] eqn:E
    end; simpl in *; rewrite IHd;
    destruct acc as [|a]; simpl; try reflexivity;
    f_equal; f_equal; lia.
Qed.

Lemma to_uint_not_Nil (n : N) : N.to_uint n <> Decimal.Nil.
Proof.
  intros H. pose proof (DecimalN.Unsigned.of_to n) as E. rewrite H in E.
  simpl in E. subst n. discriminate H.
Qed.

Lemma digits_of_N_spec (n : N) :
  nonempty (digits_of_N n) && forallb is_digit (digits_of_N n) = true /\
  digits_value 10 (fst (span_digits 10 (digits_of_N n))) = n.
Proof.
  unfold digits_of_N, NilZero.string_of_uint.
  pose proof (to_uint_not_Nil n) as Hnil.
  pose proof (DecimalN.Unsigned.of_to n) as Hval.
  destruct (N.to_uint n) as [|d|d|d|d|d|d|d|d|d|d] eqn:E; [congruence|..];
    (split;
     [ rewrite uint_digits; reflexivity
     | unfold digits_value; rewrite uint_value; exact Hval ]).
Qed.

End Digits.

(** An integer from 0 to [2^53] prints all its digits. *)
Lemma NumberToString_safe (z : Z) :
  0 <= z <= 2 ^ 53 -> NumberToString (Int z) = str (digits_of_N (Z.to_N z)).
Proof.
  intros Hz. change (2 ^ 53) with 9007199254740992 in Hz.
  unfold NumberToString, with_sign.
  replace (z <? 0) with false by (symmetry; apply Z.ltb_ge; lia).
  rewrite Z.abs_eq by lia.
  replace (Z.to_N z <=? 2 ^ 53)%N with true; [reflexivity|].
  symmetry. apply N.leb_le. change (2 ^ 53)%N with 9007199254740992%N. lia.
Qed.

(** The text of a key of the table reads back as the key: [isNaN] passes it
    and [parseInt] returns it. *)
Lemma key_text_roundtrip (z : Z) :
  0 <= z <= 2 ^ 53 ->
  isNaN (NumberToString (Int z)) = false /\
  parseInt (VString (NumberToString (Int z))) = Int z.
Proof.
  intros Hz.
  destruct (digits_of_N_spec (Z.to_N z)) as [Hd Hv].
  assert (E : decimal_digits (NumberToString (Int z)) = Some z).
  { unfold decimal_digits. rewrite (NumberToString_safe z Hz), chars_str, Hd, Hv.
    f_equal. lia. }
  destruct (parseInt_decimal_digits _ _ E) as (H1 & _ & H3).
  split; [exact H1 | apply H3; lia].
Qed.

(* ===================================================================== *)
(** ** Facts about the environment *)
(* ===================================================================== *)

Lemma added_record (w : World) (es : list Event) (w' : World) :
  trace w' = trace w ++ es -> added w w' = es.
Proof. unfold added. intros ->. apply drop_app_length. Qed.

(** The upload middleware touches the image directory only. *)
Lemma upload_single_spec (part : option Upload) (w : World) :
  fst (upload_single part w) = Ok (filename <$> part) /\
  db (snd (upload_single part w)) = db w /\
  next_id (snd (upload_single part w)) = next_id w /\
  pending (snd (upload_single part w)) = pending w /\
  console (snd (upload_single part w)) = console w /\
  trace (snd (upload_single part w))
    = trace w ++ match part with
                 | Some file => [WriteFile (Fs.image_path (filename file))]
                 | None => []
                 end.
Proof.
  destruct part as [file|]; simpl; repeat split; auto.
  symmetry. apply app_nil_r.
Qed.

(* ===================================================================== *)
(** ** POST /create *)
(* ===================================================================== *)

Lemma required_check (b : Body.t) :
  Exists (fun v => ToBoolean v = false) (required b) <->
  negb (ToBoolean (Body.name b)) || negb (ToBoolean (Body.brand b))
  || negb (ToBoolean (Body.model b)) || negb (ToBoolean (Body.year b))
  || negb (ToBoolean (Body.price b)) = true.
Proof.
  unfold required. rewrite !Exists_cons, Exists_nil.
  rewrite !orb_true_iff, !negb_true_iff. tauto.
Qed.

(** C3. POST /create with a required field ([name], [brand], [model],
    [year], [price]) missing, or present with a falsy value, answers 400 with
    the plain text "Required fields must have a value."; the car table and
    its key counter are as before, so no record was created, and the handler
    made no request to the record store. *)
Theorem post_create_missing_field (req : Request) (w : World) :
  Exists (fun v => ToBoolean v = false) (required (body req)) ->
  fst (post_create req w) = Ok (send 400 "Required fields must have a value.") /\
  db (snd (post_create req w)) = db w /\
  next_id (snd (post_create req w)) = next_id w /\
  size (db (snd (post_create req w))) = size (db w) /\
  store_accesses w (snd (post_create req w)) = [].
Proof.
  intros Hmiss%required_check.
  destruct (upload_single_spec (image req) w) as (Hr & Hdb & Hid & _ & _ & Htr).
  unfold post_create, bind.
  destruct (upload_single (image req) w) as [[file|e] w1]; simpl in *; [|discriminate].
  unfold create_handler. rewrite Hmiss. simpl.
  rewrite Hdb. repeat split; auto.
  unfold store_accesses. rewrite (added_record _ _ _ Htr).
  destruct (image req); reflexivity.
Qed.

(** A request that leaves [price] out, sent to a table with one car. *)
Lemma post_create_missing_field_witness :
  fst (post_create (request "" (Body.mk (VString "Model 3") (VString "Tesla")
                                         (VString "3") (VString "2024")
                                         VUndefined VUndefined) None) one_car)
    = Ok (send 400 "Required fields must have a value.") /\
  size (db (snd (post_create (request "" (Body.mk (VString "Model 3") (VString "Tesla")
                                         (VString "3") (VString "2024")
                                         VUndefined VUndefined) None) one_car)))
    = size (db one_car).
Proof.
  pose proof (post_create_missing_field
    (request "" (Body.mk (VString "Model 3") (VString "Tesla") (VString "3")
                         (VString "2024") VUndefined VUndefined) None) one_car) as H.
  destruct H as (H1 & _ & _ & H4 & _).
  - unfold required; simpl. do 4 apply Exists_cons_tl. apply Exists_cons_hd. reflexivity.
  - split; assumption.
Defined.










Lemma row_id (i : Z) (d : Data.t) (c : Car.t) :
  Prisma.row i d = Some c -> Car.id c = i.
Proof.
  unfold Prisma.row.
  destruct (Prisma.text (Data.name d)), (Prisma.text (Data.brand d)),
    (Prisma.text (Data.model d)), (Prisma.integer (Data.year d)),
    (Prisma.float (Data.price d)), (Prisma.text (Data.description d));
    intros [= <-] || discriminate. reflexivity.
Qed.

(** A car that POST /create answers with sits in the table under its [id],
    which is the key the store had next. *)
Lemma post_create_stored (req : Request) (w : World) (car : Car.t) :
  fst (post_create req w) = Ok (json car) ->
  Car.id car = next_id w /\ db (snd (post_create req w)) !! Car.id car = Some car.
Proof.
  destruct (upload_single_spec (image req) w) as (Hr & Hdb & Hid & _ & _ & _).
  unfold post_create, bind.
  destruct (upload_single (image req) w) as [[file|e] w1]; simpl in Hr, Hdb, Hid;
    [|discriminate].
  unfold create_handler.
  match goal with |- context [if ?c then _ else _] => destruct c end;
    [discriminate|].
  unfold Prisma.create. monad.
  match goal with |- context [Prisma.row ?i ?d] =>
    destruct (Prisma.row i d) as [c|] eqn:E end; simpl; [|discriminate].
  intros [= <-]. rewrite (row_id _ _ _ E). simpl.
  split; [exact Hid | apply lookup_insert_eq].
Qed.

(* ===================================================================== *)
(** ** GET /read/:id *)
(* ===================================================================== *)

(** C8. A car created by POST /create is read back whole: GET /read/:id
    with the [id] of the create response, written as a decimal number,
    answers 200 with the very record the create answered with.  The store's
    key is taken among the integers that a JavaScript number holds exactly,
    from 0 to [2^53]. *)
Theorem create_then_read (req rd : Request) (w : World) (car : Car.t) :
  0 <= next_id w <= 2 ^ 53 ->
  fst (post_create req w) = Ok (json car) ->
  params_id rd = NumberToString (Int (Car.id car)) ->
  fst (get_read rd (snd (post_create req w))) = Ok (json car).
Proof.
  intros Hkey Hcreate Hid.
  destruct (post_create_stored req w car Hcreate) as [Hcar Hdb].
  destruct (key_text_roundtrip (Car.id car)) as [Hnum Hint]; [rewrite Hcar; exact Hkey|].
  unfold get_read. rewrite Hid, Hnum, Hint.
  unfold Prisma.findUnique. monad. simpl.
  rewrite Hdb. reflexivity.
Qed.

(** The Tesla of the specification, created with an image and read back. *)
Lemma create_then_read_witness :
  fst (get_read (request "1" no_fields None)
                (snd (post_create (request "" tesla_fields (Some front_png)) empty_world)))
    = Ok (json tesla).
Proof.
  apply (create_then_read (request "" tesla_fields (Some front_png))
                          (request "1" no_fields None) empty_world tesla).
  - simpl. lia.
  - vm_compute. reflexivity.
  - vm_compute. reflexivity.
Defined.

(* ===================================================================== *)
(** ** The check of [:id] *)
(* ===================================================================== *)

Lemma store_accesses_trace (w w' : World) (es : list Event) :
  trace w' = trace w ++ es ->
  store_accesses w w' = List.filter is_record_store_event es.
Proof. intros H. unfold store_accesses. rewrite (added_record _ _ _ H). reflexivity. Qed.

Lemma findUnique_eq (id : number) (w : World) :
  Prisma.findUnique id w
  = (match Prisma.integer id with
     | None => Throw PrismaValidationError
     | Some i => Ok (db w !! i)
     end, record (FindUnique id) w).
Proof. unfold Prisma.findUnique. monad. destruct (Prisma.integer id); reflexivity. Qed.

Lemma update_eq (id : number) (data : Data.t) (w : World) :
  Prisma.update id data w
  = match Prisma.integer id with
    | None => (Throw PrismaValidationError, record (Update id data) w)
    | Some i =>
        match db w !! i, Prisma.row i data with
        | None, _ => (Throw PrismaRecordNotFound, record (Update id data) w)
        | Some _, None => (Throw PrismaValidationError, record (Update id data) w)
        | Some _, Some c => (Ok c, set_db (insert i c) (record (Update id data) w))
        end
    end.
Proof.
  unfold Prisma.update. monad. destruct (Prisma.integer id) as [i|]; [|reflexivity].
  simpl. destruct (db w !! i); [|reflexivity].
  destruct (Prisma.row i data); reflexivity.
Qed.

Lemma delete_eq (id : number) (w : World) :
  Prisma.delete id w
  = match Prisma.integer id with
    | None => (Throw PrismaValidationError, record (Delete id) w)
    | Some i =>
        match db w !! i with
        | None => (Throw PrismaRecordNotFound, record (Delete id) w)
        | Some c => (Ok c, set_db (base.delete i) (record (Delete id) w))
        end
    end.
Proof.
  unfold Prisma.delete. monad. destruct (Prisma.integer id) as [i|]; [|reflexivity].
  simpl. destruct (db w !! i); reflexivity.
Qed.

(** The update handler on a text that [isNaN] passes, as one equation: the
    look-up; then, for a new image on a car that has one, the [__dirname]
    that throws; otherwise the write. *)
Lemma update_handler_eq (req : Request) (file : option string) (w : World) :
  isNaN (params_id req) = false ->
  update_handler req file w
  = let id := parseInt (VString (params_id req)) in
    let w1 := record (FindUnique id) w in
    match Prisma.integer id with
    | None => (Throw PrismaValidationError, w1)
    | Some i =>
        match db w !! i with
        | None => (Ok (send 404 "Car not found."), w1)
        | Some car =>
            match file, truthy_name (Car.imageName car) with
            | Some _, Some _ => (Throw ReferenceError, w1)
            | _, _ =>
                let '(r, w3) := Prisma.update id (updatedData req file car) w1 in
                (match r with Ok c => Ok (json c) | Throw e => Throw e end, w3)
            end
        end
    end.
Proof.
  intros Hnum. unfold update_handler. rewrite Hnum.
  unfold bind at 1. rewrite findUnique_eq.
  destruct (Prisma.integer _) as [i|]; [|reflexivity].
  simpl. destruct (db w !! i) as [car|]; [|reflexivity].
  unfold bind at 1.
  destruct file as [f|], (truthy_name (Car.imageName car)) as [old|]; simpl;
    try reflexivity;
    unfold bind;
    match goal with |- context [Prisma.update ?a ?b ?c] =>
      destruct (Prisma.update a b c) as [[c'|e] w3] end; reflexivity.
Qed.

(** The delete handler on a text that [isNaN] passes, as one equation: the
    look-up, the removal of the row, and then the [__dirname] that throws when
    the car had an image. *)
Lemma delete_delete_eq (req : Request) (w : World) :
  isNaN (params_id req) = false ->
  delete_delete req w
  = let id := parseInt (VString (params_id req)) in
    let w1 := record (FindUnique id) w in
    match Prisma.integer id with
    | None => (Throw PrismaValidationError, w1)
    | Some i =>
        match db w !! i with
        | None => (Ok (send 404 "Car not found."), w1)
        | Some car =>
            (match truthy_name (Car.imageName car) with
             | Some _ => Throw ReferenceError
             | None => Ok (send 200 "Car deleted successfully.")
             end,
             set_db (base.delete i) (record (Delete id) w1))
        end
    end.
Proof.
  intros Hnum. unfold delete_delete. rewrite Hnum.
  unfold bind at 1. rewrite findUnique_eq.
  destruct (Prisma.integer _) as [i|] eqn:Ei; [|reflexivity].
  simpl. destruct (db w !! i) as [car|] eqn:Ec; [|reflexivity].
  unfold bind at 1. rewrite delete_eq, Ei. simpl. rewrite Ec.
  destruct (truthy_name (Car.imageName car)); reflexivity.
Qed.

Lemma get_read_eq (req : Request) (w : World) :
  isNaN (params_id req) = false ->
  get_read req w
  = let id := parseInt (VString (params_id req)) in
    (match Prisma.integer id with
     | None => Throw PrismaValidationError
     | Some i =>
         match db w !! i with
         | Some car => Ok (json car)
         | None => Ok (send 404 "Car not found.")
         end
     end, record (FindUnique id) w).
Proof.
  intros Hnum. unfold get_read. rewrite Hnum.
  unfold bind. rewrite findUnique_eq.
  destruct (Prisma.integer _) as [i|]; [|reflexivity].
  simpl. destruct (db w !! i); reflexivity.
Qed.

Lemma first_access (w w1 w' : World) (up rest : list Event) (q : Event) :
  trace w1 = trace w ++ up ->
  forallb (fun e => negb (is_record_store_event e)) up = true ->
  is_record_store_event q = true ->
  trace w' = trace w1 ++ q :: rest ->
  head (store_accesses w w') = Some q.
Proof.
  intros Hup Hpre Hq Htr. rewrite Hup, <- app_assoc in Htr.
  rewrite (store_accesses_trace _ _ _ Htr).
  clear Htr Hup. induction up as [|e up IH]; simpl in *.
  - rewrite Hq. reflexivity.
  - apply andb_prop in Hpre as [He Hpre]. apply negb_true_iff in He.
    rewrite He. auto.
Qed.

Lemma upload_events_not_store (part : option Upload) :
  forallb (fun e => negb (is_record_store_event e))
          match part with
          | Some file => [WriteFile (Fs.image_path (filename file))]
          | None => []
          end = true.
Proof. destruct part; reflexivity. Qed.

(** C2, as amended. On GET /read/:id, PUT /update/:id and DELETE
    /delete/:id the text of [:id] is checked with [isNaN].  A text that is not
    numeric is answered 400 "Invalid car id." and the handler makes no request
    to the record store (GET and DELETE leave the world as it was; PUT comes
    after the upload middleware, which may have stored a file).  Any other
    text reaches the store, in a look-up by [parseInt(id)] that is the first
    request of the handler.  A text of decimal digits is among these: it is
    looked up by the number its integer converts to, which is the integer
    itself up to [2^53] and the nearest binary64 value beyond. *)
Theorem id_check (req : Request) (w : World) :
  (isNaN (params_id req) = true ->
     get_read req w = (Ok (send 400 "Invalid car id."), w) /\
     delete_delete req w = (Ok (send 400 "Invalid car id."), w) /\
     fst (put_update req w) = Ok (send 400 "Invalid car id.") /\
     db (snd (put_update req w)) = db w /\
     store_accesses w (snd (put_update req w)) = []) /\
  (isNaN (params_id req) = false ->
     let q := FindUnique (parseInt (VString (params_id req))) in
     head (store_accesses w (snd (get_read req w))) = Some q /\
     head (store_accesses w (snd (delete_delete req w))) = Some q /\
     head (store_accesses w (snd (put_update req w))) = Some q) /\
  (forall n, decimal_digits (params_id req) = Some n ->
     isNaN (params_id req) = false /\
     parseInt (VString (params_id req)) = of_integer false (Z.to_N n) /\
     (n <= 2 ^ 53 -> parseInt (VString (params_id req)) = Int n)).
Proof.
  destruct (upload_single_spec (image req) w) as (Hr & Hdb & _ & _ & _ & Htr).
  pose proof (upload_events_not_store (image req)) as Hup.
  split; [|split].
  - intros Hnan. unfold get_read, delete_delete, put_update, update_handler, bind.
    rewrite Hnan.
    destruct (upload_single (image req) w) as [[file|e] w1]; simpl in Hr, Hdb, Htr;
      simpl; [|discriminate].
    repeat split; auto.
    rewrite (store_accesses_trace _ _ _ Htr). destruct (image req); reflexivity.
  - intros Hnum q. subst q.
    assert (H0 : trace w = trace w ++ []) by (symmetry; apply app_nil_r).
    split; [|split].
    + rewrite (get_read_eq req w Hnum). cbv zeta.
      eapply (first_access w w _ [] []); [exact H0 | reflexivity | reflexivity |].
      reflexivity.
    + rewrite (delete_delete_eq req w Hnum). cbv zeta.
      destruct (Prisma.integer _) as [i|];
        [destruct (db w !! i) as [car|]|];
        (eapply (first_access w w _ []); [exact H0 | reflexivity | reflexivity |]);
        trace_of_run.
    + unfold put_update, bind.
      destruct (upload_single (image req) w) as [[file|e] w1]; simpl in Hr, Htr;
        [|discriminate].
      rewrite (update_handler_eq req file w1 Hnum). cbv zeta.
      destruct (Prisma.integer (parseInt (VString (params_id req)))) as [i|] eqn:Ei;
        [destruct (db w1 !! i) as [car|] eqn:Ec|].
      * destruct file as [f|], (truthy_name (Car.imageName car)) as [old|];
          try (eapply (first_access w w1 _ _ []);
               [exact Htr | exact Hup | reflexivity | reflexivity]);
          rewrite update_eq, Ei; simpl; rewrite Ec;
          match goal with |- context [Prisma.row ?a ?b] => destruct (Prisma.row a b) end;
          (eapply (first_access w w1); [exact Htr | exact Hup | reflexivity |]);
          trace_of_run.
      * eapply (first_access w w1); [exact Htr | exact Hup | reflexivity |].
        trace_of_run.
      * eapply (first_access w w1); [exact Htr | exact Hup | reflexivity |].
        trace_of_run.
  - apply parseInt_decimal_digits.
Qed.

(** C2 as stated fails.  Neither ["1.5"] nor ["Infinity"] is a base-10
    integer, and [parseInt] gives [NaN] for the second; yet no request with
    them is answered 400: the first reads car 1, the second takes [NaN] to the
    store, which throws. *)
Lemma id_check_counterexample :
  decimal_digits "1.5" = None /\
  isNaN "1.5" = false /\
  get_read (request "1.5" no_fields None) one_car
    = (Ok (json tesla), record (FindUnique (Int 1)) one_car) /\
  decimal_digits "Infinity" = None /\
  parseInt (VString "Infinity") = NaN /\
  get_read (request "Infinity" no_fields None) one_car
    = (Throw PrismaValidationError, record (FindUnique NaN) one_car).
Proof. repeat split; vm_compute; reflexivity. Qed.

(** A text that is no number is turned away; the key of the one car of
    [one_car] reaches the store. *)
Lemma id_check_witness :
  get_read (request "abc" no_fields None) one_car
    = (Ok (send 400 "Invalid car id."), one_car) /\
  head (store_accesses one_car (snd (delete_delete (request "1" no_fields None) one_car)))
    = Some (FindUnique (Int 1)).
Proof.
  destruct (id_check (request "abc" no_fields None) one_car) as [Hbad _].
  destruct (id_check (request "1" no_fields None) one_car) as (_ & Hgood & _).
  split.
  - exact (proj1 (Hbad eq_refl)).
  - exact (proj1 (proj2 (Hgood eq_refl))).
Defined.

(* ===================================================================== *)
(** ** DELETE /delete/:id *)
(* ===================================================================== *)

(** The table is out of reach of the event loop's file work. *)
Lemma run_pending_db (w : World) : db (Fs.run_pending w) = db w.
Proof.
  unfold Fs.run_pending.
  assert (H : forall l w0, db (fold_left (fun w u => Fs.complete u w) l w0) = db w0).
  { induction l as [|u l IH]; intros w0; simpl; [reflexivity|].
    rewrite IH. unfold Fs.complete. destruct (bool_decide _); reflexivity. }
  rewrite H. reflexivity.
Qed.

(** C4. What DELETE /delete/:id does with a numeric [:id].  With no car
    under the key it answers 404 and table, files and file work in flight are
    as before.  Otherwise it looks the car up and removes the row, and these
    are its only two requests.  For a car without an image it then answers 200
    "Car deleted successfully.".  For a car with an image it throws instead:
    the path of the image is built from [__dirname], which the module does not
    have, so no [unlink] is started, the image file stays, and there is no
    answer, although the row is gone. *)
Theorem delete_delete_spec (req : Request) (w : World) (i : Z) :
  isNaN (params_id req) = false ->
  Prisma.integer (parseInt (VString (params_id req))) = Some i ->
  let id := parseInt (VString (params_id req)) in
  let w' := snd (delete_delete req w) in
  match db w !! i with
  | None =>
      fst (delete_delete req w) = Ok (send 404 "Car not found.") /\
      db w' = db w /\ files w' = files w /\ pending w' = pending w
  | Some car =>
      db w' = base.delete i (db w) /\
      db w' !! i = None /\
      files w' = files w /\
      console w' = console w /\
      pending w' = pending w /\
      added w w' = [FindUnique id; Delete id] /\
      fst (delete_delete req w)
        = match truthy_name (Car.imageName car) with
          | None => Ok (send 200 "Car deleted successfully.")
          | Some _ => Throw ReferenceError
          end
  end.
Proof.
  intros Hnum Hid id w'. subst id w'.
  rewrite (delete_delete_eq req w Hnum). cbv zeta. rewrite Hid.
  destruct (db w !! i) as [car|] eqn:Hcar; [|simpl; auto].
  cbn [fst snd].
  split; [reflexivity|]. split; [apply lookup_delete_eq|].
  do 3 (split; [reflexivity|]).
  split; [apply added_record; trace_of_run | reflexivity].
Qed.

Lemma db_one_car : db one_car = <[1 := tesla]> ∅.
Proof. vm_compute. reflexivity. Qed.

Lemma names_ok_one_car : names_ok one_car.
Proof.
  intros i car. rewrite db_one_car. destruct (decide (1 = i)) as [<-|Hne].
  - rewrite lookup_insert_eq. intros [= <-]. discriminate.
  - rewrite lookup_insert_ne, lookup_empty by exact Hne. discriminate.
Qed.

(** The one car of [one_car], which has an image: the handler throws, the
    row is gone and the image file is still there. *)
Lemma delete_delete_spec_witness :
  fst (delete_delete (request "1" no_fields None) one_car) = Throw ReferenceError /\
  db (snd (delete_delete (request "1" no_fields None) one_car)) !! 1 = None /\
  files (snd (delete_delete (request "1" no_fields None) one_car)) = files one_car /\
  pending (snd (delete_delete (request "1" no_fields None) one_car)) = [].
Proof.
  assert (Hnum : isNaN "1" = false) by (vm_compute; reflexivity).
  assert (Hid : Prisma.integer (parseInt (VString "1")) = Some 1)
    by (vm_compute; reflexivity).
  pose proof (delete_delete_spec (request "1" no_fields None) one_car 1 Hnum Hid) as H.
  cbv zeta in H. rewrite db_one_car, lookup_insert_eq in H.
  destruct H as (_ & H2 & H3 & _ & H5 & _ & H7).
  split; [exact H7|]. split; [exact H2|]. split; [exact H3 | exact H5].
Defined.

(* ===================================================================== *)
(** ** PUT /update/:id *)
(* ===================================================================== *)

Lemma upload_single_files (part : option Upload) (w : World) :
  files (snd (upload_single part w))
  = match part with
    | Some file => files w ∪ {[ Fs.image_path (filename file) ]}
    | None => files w
    end.
Proof. destruct part; reflexivity. Qed.

(** PUT /update/:id on a car that exists, as one equation: the upload and
    the look-up; then, for a new image on a car that has one, the [__dirname]
    that throws; otherwise the write of [updatedData], which the store may
    refuse. *)
Lemma put_update_found (req : Request) (w : World) (i : Z) (car : Car.t) :
  isNaN (params_id req) = false ->
  Prisma.integer (parseInt (VString (params_id req))) = Some i ->
  db w !! i = Some car ->
  let id := parseInt (VString (params_id req)) in
  let file := filename <$> image req in
  let data := updatedData req file car in
  let w1 := record (FindUnique id) (snd (upload_single (image req) w)) in
  put_update req w
  = match file, truthy_name (Car.imageName car) with
    | Some _, Some _ => (Throw ReferenceError, w1)
    | _, _ =>
        match Prisma.row i data with
        | Some c => (Ok (json c), set_db (insert i c) (record (Update id data) w1))
        | None => (Throw PrismaValidationError, record (Update id data) w1)
        end
    end.
Proof.
  intros Hnum Hid Hcar id file data w1. subst id.
  destruct (upload_single_spec (image req) w) as (Hr & Hdb & _).
  unfold put_update, bind.
  destruct (upload_single (image req) w) as [[f|e] w0] eqn:Eup; simpl in Hr, Hdb;
    [|discriminate].
  injection Hr as Hf. fold file in Hf. subst f.
  rewrite (update_handler_eq req file w0 Hnum). cbv zeta.
  rewrite Hid, Hdb, Hcar. fold data. subst w1. simpl snd.
  destruct file as [f|], (truthy_name (Car.imageName car)) as [old|];
    try reflexivity;
    rewrite update_eq, Hid; simpl; rewrite Hdb, Hcar;
    destruct (Prisma.row i data); reflexivity.
Qed.

(** With no file work in flight the event loop has nothing to do. *)
Lemma run_pending_idle (w : World) : pending w = [] -> Fs.run_pending w = w.
Proof.
  intros H. unfold Fs.run_pending. rewrite H. simpl.
  destruct w; simpl in *. subst. reflexivity.
Qed.

(** No handler of the router gets as far as [fs.unlink]: the path it would
    pass is built from [__dirname]. *)
Lemma put_update_pending (req : Request) (w : World) :
  pending (snd (put_update req w)) = pending w /\
  console (snd (put_update req w)) = console w /\
  files (snd (put_update req w)) = files (snd (upload_single (image req) w)).
Proof.
  destruct (upload_single_spec (image req) w) as (Hr & _ & _ & Hpend & Hcons & _).
  unfold put_update, bind.
  destruct (upload_single (image req) w) as [[file|e] w1]; simpl in Hr, Hpend, Hcons;
    [|discriminate].
  destruct (isNaN (params_id req)) eqn:Hnum.
  { unfold update_handler. rewrite Hnum. simpl. auto. }
  rewrite (update_handler_eq req file w1 Hnum). cbv zeta.
  destruct (Prisma.integer _) as [i|] eqn:Ei; [|simpl; auto].
  destruct (db w1 !! i) as [car|] eqn:Ec; [|simpl; auto].
  destruct file as [f|], (truthy_name (Car.imageName car)) as [old|];
    try (simpl; auto; fail);
    rewrite update_eq, Ei; simpl; rewrite Ec;
    match goal with |- context [Prisma.row ?a ?b] => destruct (Prisma.row a b) end;
    simpl; auto.
Qed.

(** C5. What PUT /update/:id does about the old image.  On a car that
    exists, the handler reaches the code that removes the old image exactly
    when the request brought a new image and the car has an image name; and
    there it throws, because the path of the old image is built from
    [__dirname], which the module does not have.  So the old image is never
    removed: no removal is in flight after the handler, whatever the request,
    the console is as before, the image directory holds what it held plus the
    new upload, and nothing changes when the event loop runs. *)
Theorem put_update_unlinks_old (req : Request) (w : World) (i : Z) (car : Car.t) :
  isNaN (params_id req) = false ->
  Prisma.integer (parseInt (VString (params_id req))) = Some i ->
  db w !! i = Some car ->
  let w' := snd (put_update req w) in
  (fst (put_update req w) = Throw ReferenceError <->
   image req <> None /\ truthy_name (Car.imageName car) <> None) /\
  pending w' = pending w /\
  console w' = console w /\
  files w' = match image req with
             | Some file => files w ∪ {[ Fs.image_path (filename file) ]}
             | None => files w
             end /\
  (pending w = [] -> Fs.run_pending w' = w').
Proof.
  intros Hnum Hid Hcar w'. subst w'.
  destruct (put_update_pending req w) as (Hpend & Hcons & Hfiles).
  rewrite upload_single_files in Hfiles.
  split; [|split; [exact Hpend | split; [exact Hcons | split; [exact Hfiles|]]]].
  - rewrite (put_update_found req w i car Hnum Hid Hcar). cbv zeta.
    destruct (image req) as [file|], (truthy_name (Car.imageName car)) as [old|];
      simpl fmap; cbv iota;
      try (destruct (Prisma.row i _); cbn [fst]);
      (split; [intros H; try discriminate H; split; discriminate
              | intros [H1 H2]; try reflexivity; congruence]).
  - intros Hnone. apply run_pending_idle. rewrite Hpend. exact Hnone.
Qed.

(** A new image for the one car of [one_car], which has one: the handler
    throws, nothing is removed, and both image files are on disk. *)
Lemma put_update_unlinks_old_witness :
  fst (put_update (request "1" no_fields (Some rear_jpg)) one_car) = Throw ReferenceError /\
  pending (snd (put_update (request "1" no_fields (Some rear_jpg)) one_car)) = [] /\
  files (snd (put_update (request "1" no_fields (Some rear_jpg)) one_car))
    = files one_car ∪ {[ Fs.image_path (filename rear_jpg) ]}.
Proof.
  assert (Hnum : isNaN "1" = false) by (vm_compute; reflexivity).
  assert (Hid : Prisma.integer (parseInt (VString "1")) = Some 1)
    by (vm_compute; reflexivity).
  assert (Hcar : db one_car !! 1 = Some tesla)
    by (rewrite db_one_car; apply lookup_insert_eq).
  destruct (put_update_unlinks_old (request "1" no_fields (Some rear_jpg)) one_car 1 tesla
              Hnum Hid Hcar) as (H1 & H2 & _ & H4 & _).
  split; [|split; [exact H2 | exact H4]].
  apply H1. split; discriminate.
Defined.

(** C10. PUT /update/:id on a car that has an image, with a new image.  The
    requests of the handler are the upload's file write and the look-up, and
    that is all: it throws at [__dirname] before it has called [fs.unlink] and
    before it has asked the store to update.  So the table is untouched, the
    car still names its old image, the old image file is not removed, and the
    new file stays in the image directory with no record that names it. *)
Theorem put_update_unlink_before_write
    (req : Request) (w : World) (i : Z) (car : Car.t) (old : string) (file : Upload) :
  isNaN (params_id req) = false ->
  Prisma.integer (parseInt (VString (params_id req))) = Some i ->
  db w !! i = Some car ->
  truthy_name (Car.imageName car) = Some old ->
  image req = Some file ->
  let id := parseInt (VString (params_id req)) in
  let w' := snd (put_update req w) in
  fst (put_update req w) = Throw ReferenceError /\
  added w w' = [WriteFile (Fs.image_path (filename file)); FindUnique id] /\
  db w' = db w /\
  db w' !! i = Some car /\
  pending w' = pending w /\
  files w' = files w ∪ {[ Fs.image_path (filename file) ]} /\
  (pending w = [] -> Fs.run_pending w' = w').
Proof.
  intros Hnum Hid Hcar Hold Himg id w'. subst id w'.
  destruct (upload_single_spec (image req) w) as (_ & Hdb & _ & Hpend & _ & Htr).
  pose proof (upload_single_files (image req) w) as Hfiles.
  rewrite (put_update_found req w i car Hnum Hid Hcar). cbv zeta.
  rewrite Hold.
  assert (Efile : filename <$> image req = Some (filename file)) by (rewrite Himg; reflexivity).
  rewrite Efile. cbv iota. cbn [fst snd].
  set (w0 := snd (upload_single (image req) w)) in *.
  rewrite Himg in Htr, Hfiles.
  split; [reflexivity|].
  split; [apply added_record; simpl; rewrite Htr, <- app_assoc; reflexivity|].
  split; [exact Hdb|]. split; [simpl; rewrite Hdb; exact Hcar|].
  split; [exact Hpend|]. split; [exact Hfiles|].
  intros Hnone. apply run_pending_idle. simpl. rewrite Hpend. exact Hnone.
Qed.

(** A new image for the one car of [one_car], which has one. *)
Lemma put_update_unlink_before_write_witness :
  fst (put_update (request "1" no_fields (Some rear_jpg)) one_car) = Throw ReferenceError /\
  added one_car (snd (put_update (request "1" no_fields (Some rear_jpg)) one_car))
    = [WriteFile (Fs.image_path (filename rear_jpg)); FindUnique (Int 1)] /\
  db (snd (put_update (request "1" no_fields (Some rear_jpg)) one_car)) !! 1 = Some tesla.
Proof.
  assert (Hnum : isNaN "1" = false) by (vm_compute; reflexivity).
  assert (Hid : Prisma.integer (parseInt (VString "1")) = Some 1)
    by (vm_compute; reflexivity).
  assert (Hcar : db one_car !! 1 = Some tesla)
    by (rewrite db_one_car; apply lookup_insert_eq).
  destruct (put_update_unlink_before_write
              (request "1" no_fields (Some rear_jpg)) one_car 1 tesla
              "1700000000000-417.png" rear_jpg Hnum Hid Hcar eq_refl eq_refl)
    as (H1 & H2 & _ & H4 & _).
  split; [exact H1|]. split; [|exact H4].
  rewrite H2. vm_compute. reflexivity.
Defined.

Lemma float_Some (n p : number) : Prisma.float n = Some p -> p = n.
Proof. destruct n; simpl; congruence. Qed.

Lemma merged_text (input : value) (old new : string) :
  Prisma.text (or_else input (VString old)) = Some new ->
  merged Prisma.text input old new.
Proof.
  unfold merged, or_else. destruct (ToBoolean input); simpl; congruence.
Qed.

(** What the store makes of [updatedData], field by field. *)
Lemma row_updatedData (req : Request) (file : option string) (i : Z) (car car' : Car.t) :
  Prisma.row i (updatedData req file car) = Some car' ->
  Car.id car' = i /\
  merged Prisma.text (Body.name (body req)) (Car.name car) (Car.name car') /\
  merged Prisma.text (Body.brand (body req)) (Car.brand car) (Car.brand car') /\
  merged Prisma.text (Body.model (body req)) (Car.model car) (Car.model car') /\
  merged (fun v => Prisma.integer (parseInt v))
         (Body.year (body req)) (Car.year car) (Car.year car') /\
  merged (fun v => Prisma.float (parseFloat v))
         (Body.price (body req)) (Car.price car) (Car.price car') /\
  merged Prisma.text (Body.description (body req))
         (Car.description car) (Car.description car') /\
  Car.imageName car' = match file with
                       | Some filename => Some filename
                       | None => Car.imageName car
                       end.
Proof.
  unfold Prisma.row, updatedData. cbn [Data.name Data.brand Data.model Data.year
    Data.price Data.description Data.imageName].
  destruct (Prisma.text (or_else (Body.name _) _)) as [n|] eqn:En; [|discriminate].
  destruct (Prisma.text (or_else (Body.brand _) _)) as [b|] eqn:Eb; [|discriminate].
  destruct (Prisma.text (or_else (Body.model _) _)) as [m|] eqn:Em; [|discriminate].
  destruct (Prisma.integer _) as [y|] eqn:Ey; [|discriminate].
  destruct (Prisma.float _) as [p|] eqn:Ep; [|discriminate].
  destruct (Prisma.text (or_else (Body.description _) _)) as [d|] eqn:Ed; [|discriminate].
  intros [= <-]. cbn [Car.id Car.name Car.brand Car.model Car.year Car.price
    Car.description Car.imageName].
  repeat split; auto using merged_text.
  - unfold merged. destruct (ToBoolean (Body.year (body req))); simpl in Ey; congruence.
  - unfold merged. destruct (ToBoolean (Body.price (body req)));
      [exact Ep | apply float_Some; exact Ep].
Qed.

(** C1, as amended. PUT /update/:id on a car that exists, with data the
    store accepts, where the request does not bring a new image for a car
    that already has one: the answer is 200 with the merged record and the
    table holds it under the same key.  Each field of the merged record is the
    submitted value when that is truthy ([year] through [parseInt], [price]
    through [parseFloat]) and the stored value when it is left out or falsy;
    [imageName] is the new file's name, or the stored one without a file.  So
    the number 0 of a JSON body is taken as not provided and the stored [year]
    or [price] stays, whereas the text "0" of a form field is truthy and sets
    [year] or [price] to 0. *)
Theorem put_update_merges (req : Request) (w : World) (i : Z) (car car' : Car.t) :
  isNaN (params_id req) = false ->
  Prisma.integer (parseInt (VString (params_id req))) = Some i ->
  db w !! i = Some car ->
  image req = None \/ truthy_name (Car.imageName car) = None ->
  Prisma.row i (updatedData req (filename <$> image req) car) = Some car' ->
  fst (put_update req w) = Ok (json car') /\
  db (snd (put_update req w)) = <[i := car']> (db w) /\
  Car.id car' = i /\
  merged Prisma.text (Body.name (body req)) (Car.name car) (Car.name car') /\
  merged Prisma.text (Body.brand (body req)) (Car.brand car) (Car.brand car') /\
  merged Prisma.text (Body.model (body req)) (Car.model car) (Car.model car') /\
  merged (fun v => Prisma.integer (parseInt v))
         (Body.year (body req)) (Car.year car) (Car.year car') /\
  merged (fun v => Prisma.float (parseFloat v))
         (Body.price (body req)) (Car.price car) (Car.price car') /\
  merged Prisma.text (Body.description (body req))
         (Car.description car) (Car.description car') /\
  Car.imageName car' = match image req with
                       | Some file => Some (filename file)
                       | None => Car.imageName car
                       end /\
  (Body.year (body req) = VNumber (Int 0) -> Car.year car' = Car.year car) /\
  (Body.price (body req) = VNumber (Int 0) -> Car.price car' = Car.price car) /\
  (Body.year (body req) = VString "0" -> Car.year car' = 0) /\
  (Body.price (body req) = VString "0" -> Car.price car' = Int 0).
Proof.
  intros Hnum Hid Hcar Hfree Hrow.
  assert (Hgo : put_update req w
                = (Ok (json car'),
                   set_db (insert i car')
                     (record (Update (parseInt (VString (params_id req)))
                                (updatedData req (filename <$> image req) car))
                        (record (FindUnique (parseInt (VString (params_id req))))
                           (snd (upload_single (image req) w)))))).
  { rewrite (put_update_found req w i car Hnum Hid Hcar). cbv zeta. rewrite Hrow.
    destruct Hfree as [-> | ->]; [reflexivity|].
    destruct (filename <$> image req); reflexivity. }
  rewrite Hgo. cbn [fst snd].
  destruct (row_updatedData req _ i car car' Hrow)
    as (Hi & Hn & Hb & Hm & Hy & Hp & Hd & Him).
  destruct (upload_single_spec (image req) w) as (_ & Hdb & _).
  split; [reflexivity|]. split; [simpl; rewrite Hdb; reflexivity|].
  do 7 (split; [assumption|]).
  split; [rewrite Him; destruct (image req); reflexivity|].
  unfold merged in Hy, Hp.
  repeat split; intros E.
  - rewrite E in Hy. exact Hy.
  - rewrite E in Hp. exact Hp.
  - rewrite E in Hy. vm_compute in Hy. injection Hy as Hy. symmetry. exact Hy.
  - rewrite E in Hp. vm_compute in Hp. injection Hp as Hp. symmetry. exact Hp.
Qed.

(** The brand of the one car of [one_car] corrected, in a JSON body that
    also carries the number 0 as [price]: the stored price stays. *)
Lemma put_update_merges_witness :
  fst (put_update (request "1" (Body.mk VUndefined (VString "Tesla, Inc.") VUndefined
                                        VUndefined (VNumber (Int 0)) VUndefined) None)
                  one_car)
    = Ok (json (Car.mk 1 "Model S" "Tesla, Inc." "S" 2023 tesla_price ""
                       (Some "1700000000000-417.png"))).
Proof.
  apply (put_update_merges
           (request "1" (Body.mk VUndefined (VString "Tesla, Inc.") VUndefined
                                 VUndefined (VNumber (Int 0)) VUndefined) None)
           one_car 1 tesla).
  - vm_compute. reflexivity.
  - vm_compute. reflexivity.
  - rewrite db_one_car. apply lookup_insert_eq.
  - left. reflexivity.
  - vm_compute. reflexivity.
Defined.

(** C1 as stated fails where it takes [year=0] and [price=0] for not
    provided: submitted as form fields they are the text "0", which is
    truthy, and the stored year 2023 and price 79999.99 are overwritten. *)
Lemma put_update_zero_text_counterexample :
  ToBoolean (VString "0") = true /\
  db one_car !! 1 = Some tesla /\
  fst (put_update (request "1" (Body.mk VUndefined VUndefined VUndefined
                                        (VString "0") (VString "0") VUndefined) None)
                  one_car)
    = Ok (json (Car.mk 1 "Model S" "Tesla" "S" 0 (Int 0) ""
                       (Some "1700000000000-417.png"))).
Proof. repeat split; vm_compute; reflexivity. Qed.

(** C6. PUT /update/:id on a car that exists, with [price] as the only
    field of the body and no file: when [price] is truthy and [parseFloat]
    reads a finite number from it, the answer is 200 with a record whose
    [price] is that number and whose [id], [name], [brand], [model], [year],
    [description] and [imageName] are the stored ones; the table holds that
    record. *)
Theorem put_update_only_price
    (req : Request) (w : World) (i : Z) (car : Car.t) (price : value) (p : number) :
  isNaN (params_id req) = false ->
  Prisma.integer (parseInt (VString (params_id req))) = Some i ->
  db w !! i = Some car ->
  body req = only_price price ->
  image req = None ->
  ToBoolean price = true ->
  Prisma.float (parseFloat price) = Some p ->
  let car' := Car.mk i (Car.name car) (Car.brand car) (Car.model car) (Car.year car)
                     p (Car.description car) (Car.imageName car) in
  fst (put_update req w) = Ok (json car') /\
  db (snd (put_update req w)) !! i = Some car'.
Proof.
  intros Hnum Hid Hcar Hbody Himg Htrue Hp car'.
  assert (Hrow : Prisma.row i (updatedData req (filename <$> image req) car) = Some car').
  { unfold Prisma.row, updatedData. rewrite Hbody, Himg. simpl.
    rewrite Htrue, Hp. reflexivity. }
  rewrite (put_update_found req w i car Hnum Hid Hcar). cbv zeta.
  rewrite Hrow, Himg. simpl fmap. cbv iota.
  split; [reflexivity|]. simpl. apply lookup_insert_eq.
Qed.

(** A new price for the one car of [one_car]. *)
Lemma put_update_only_price_witness :
  fst (put_update (request "1" (only_price (VString "74990.5")) None) one_car)
    = Ok (json (Car.mk 1 "Model S" "Tesla" "S" 2023 (Frac false 749905 1) ""
                       (Some "1700000000000-417.png"))).
Proof.
  apply (put_update_only_price
           (request "1" (only_price (VString "74990.5")) None)
           one_car 1 tesla (VString "74990.5") (Frac false 749905 1)).
  - vm_compute. reflexivity.
  - vm_compute. reflexivity.
  - rewrite db_one_car. apply lookup_insert_eq.
  - reflexivity.
  - reflexivity.
  - reflexivity.
  - vm_compute. reflexivity.
Defined.

(* ===================================================================== *)
(** ** Image names in the table are file names *)
(* ===================================================================== *)

Lemma filename_nonempty (file : Upload) : filename file <> EmptyString.
Proof.
  unfold filename. intros H. apply (f_equal chars) in H.
  rewrite chars_str in H. simpl in H.
  destruct (chars (NumberToString (Int (Z.of_N (now file))))); discriminate H.
Qed.

Lemma names_ok_db (w w' : World) : db w' = db w -> names_ok w -> names_ok w'.
Proof. unfold names_ok. intros ->. auto. Qed.

Lemma names_ok_insert (w w' : World) (i : Z) (c : Car.t) :
  db w' = <[i := c]> (db w) -> Car.imageName c <> Some EmptyString ->
  names_ok w -> names_ok w'.
Proof.
  unfold names_ok. intros -> Hc Hok j car.
  destruct (decide (i = j)) as [->|Hne].
  - rewrite lookup_insert_eq. congruence.
  - rewrite lookup_insert_ne by exact Hne. apply Hok.
Qed.

Lemma names_ok_delete (w w' : World) (i : Z) :
  db w' = base.delete i (db w) -> names_ok w -> names_ok w'.
Proof.
  unfold names_ok. intros -> Hok j car.
  destruct (decide (i = j)) as [->|Hne].
  - rewrite lookup_delete_eq. discriminate.
  - rewrite lookup_delete_ne by exact Hne. apply Hok.
Qed.

Lemma row_imageName (i : Z) (d : Data.t) (c : Car.t) :
  Prisma.row i d = Some c -> Car.imageName c = Data.imageName d.
Proof.
  unfold Prisma.row.
  destruct (Prisma.text (Data.name d)), (Prisma.text (Data.brand d)),
    (Prisma.text (Data.model d)), (Prisma.integer (Data.year d)),
    (Prisma.float (Data.price d)), (Prisma.text (Data.description d));
    intros [= <-] || discriminate. reflexivity.
Qed.

(** X20. The table starts with [names_ok] and every route, and the event
    loop, keeps it: the only names written are those that [filename] made. *)
Theorem names_ok_invariant (req : Request) (w : World) :
  names_ok empty_world /\
  (names_ok w ->
   names_ok (snd (get_all w)) /\
   names_ok (snd (get_read req w)) /\
   names_ok (snd (post_create req w)) /\
   names_ok (snd (put_update req w)) /\
   names_ok (snd (delete_delete req w)) /\
   names_ok (Fs.run_pending w)).
Proof.
  split.
  { intros i car. unfold empty_world; simpl. rewrite lookup_empty. discriminate. }
  intros Hok.
  destruct (upload_single_spec (image req) w) as (Hr & Hdb & _).
  assert (Hfile : forall f, filename <$> image req = Some f -> f <> EmptyString).
  { destruct (image req); simpl; intros f [= <-]. apply filename_nonempty. }
  split; [apply (names_ok_db w); [reflexivity | exact Hok]|].
  split.
  { destruct (isNaN (params_id req)) eqn:Hnum.
    - unfold get_read. rewrite Hnum. exact Hok.
    - rewrite (get_read_eq req w Hnum). apply (names_ok_db w); [reflexivity | exact Hok]. }
  split.
  { unfold post_create, bind.
    destruct (upload_single (image req) w) as [[file|e] w1]; simpl in Hr, Hdb;
      [|discriminate].
    injection Hr as Hr. unfold create_handler.
    match goal with |- context [if ?c then _ else _] => destruct c end;
      [apply (names_ok_db w); [exact Hdb | exact Hok]|].
    unfold Prisma.create. monad.
    match goal with |- context [Prisma.row ?i ?d] =>
      destruct (Prisma.row i d) as [c|] eqn:E end; simpl;
      [|apply (names_ok_db w); [exact Hdb | exact Hok]].
    apply (names_ok_insert w _ (next_id w1) c); [simpl; rewrite Hdb; reflexivity | | exact Hok].
    rewrite (row_imageName _ _ _ E). simpl.
    destruct file as [f|]; [|discriminate].
    intros [= Hf]. apply (Hfile f); [symmetry; exact Hr | exact Hf]. }
  split.
  { unfold put_update, bind.
    destruct (upload_single (image req) w) as [[file|e] w1]; simpl in Hr, Hdb;
      [|discriminate].
    injection Hr as Hr.
    destruct (isNaN (params_id req)) eqn:Hnum.
    - unfold update_handler. rewrite Hnum. apply (names_ok_db w); [exact Hdb | exact Hok].
    - rewrite (update_handler_eq req file w1 Hnum). cbv zeta.
      destruct (Prisma.integer _) as [i|] eqn:Ei;
        [|apply (names_ok_db w); [exact Hdb | exact Hok]].
      destruct (db w1 !! i) as [car|] eqn:Ec;
        [|apply (names_ok_db w); [exact Hdb | exact Hok]].
      assert (Hnew : forall c, Prisma.row i (updatedData req file car) = Some c ->
                               Car.imageName c <> Some EmptyString).
      { intros c E. rewrite (row_imageName _ _ _ E). simpl.
        destruct file as [f|].
        - intros [= Hf]. apply (Hfile f); [symmetry; exact Hr | exact Hf].
        - apply (Hok i). rewrite <- Hdb. exact Ec. }
      destruct file as [f|], (truthy_name (Car.imageName car)) as [old|];
        try (apply (names_ok_db w); [exact Hdb | exact Hok]);
        rewrite update_eq, Ei; simpl; rewrite Ec;
        (destruct (Prisma.row i _) as [c|] eqn:E; simpl;
         [ apply (names_ok_insert w _ i c);
           [simpl; rewrite Hdb; reflexivity | apply Hnew; reflexivity | exact Hok]
         | apply (names_ok_db w); [exact Hdb | exact Hok] ]). }
  split.
  { destruct (isNaN (params_id req)) eqn:Hnum.
    - unfold delete_delete. rewrite Hnum. exact Hok.
    - rewrite (delete_delete_eq req w Hnum). cbv zeta.
      destruct (Prisma.integer _) as [i|];
        [|apply (names_ok_db w); [reflexivity | exact Hok]].
      destruct (db w !! i) as [car|];
        [|apply (names_ok_db w); [reflexivity | exact Hok]].
      apply (names_ok_delete w _ i); [reflexivity | exact Hok]. }
  apply (names_ok_db w); [apply run_pending_db | exact Hok].
Qed.

(* ===================================================================== *)
(** ** The names of uploaded files *)
(* ===================================================================== *)

(** The last piece of a split text has no separator in it, and the text is
    that piece alone or ends in a separator followed by it. *)
Lemma split_last (sep : ascii) (l : list ascii) :
  exists h t,
    split sep l = h :: t /\
    forallb (fun c => negb (ascii_eqb c sep)) (List.last (h :: t) []) = true /\
    (t = [] -> l = h) /\
    (t <> [] -> exists base, l = base ++ sep :: List.last t []).
Proof.
  induction l as [|c r (h & t & Hs & Hno & Hone & Hmore)].
  - exists [], []. repeat split; auto. intros H; congruence.
  - simpl. rewrite Hs. unfold ascii_eqb in *.
    destruct (Ascii.eqb_spec c sep) as [->|Hne].
    + exists [], (h :: t). split; [reflexivity|]. split; [exact Hno|].
      split; [discriminate|]. intros _.
      destruct t as [|h' t'].
      * exists []. rewrite (Hone eq_refl). reflexivity.
      * destruct Hmore as [base Hb]; [discriminate|].
        exists (sep :: base). rewrite Hb. reflexivity.
    + exists (c :: h), t. split; [reflexivity|].
      destruct t as [|h' t'].
      * split; [|split; [intros _; rewrite (Hone eq_refl); reflexivity | congruence]].
        simpl in Hno |- *. rewrite Hno.
        destruct (Ascii.eqb_spec c sep); [contradiction | reflexivity].
      * split; [exact Hno|]. split; [discriminate|]. intros _.
        destruct Hmore as [base Hb]; [discriminate|].
        exists (c :: base). rewrite Hb. reflexivity.
Qed.

(** X1. The name [filename] gives an upload ends in a dot followed by the
    extension of the original name, which is the part after its last dot and
    has no dot in it; an original name without a dot is taken whole as the
    extension. *)
Theorem filename_extension (file : Upload) :
  exists stem ext,
    chars (filename file) = stem ++ "."%char :: ext /\
    dotless ext = true /\
    (chars (originalname file) = ext \/
     exists base, chars (originalname file) = base ++ "."%char :: ext).
Proof.
  destruct (split_last "." (chars (originalname file)))
    as (h & t & Hs & Hno & Hone & Hmore).
  exists (chars (NumberToString (Int (Z.of_N (now file)))) ++ "-"%char
            :: chars (NumberToString (Int (Z.of_N (random1000 file))))),
         (pop (split "." (chars (originalname file)))).
  split; [|split].
  - unfold filename. rewrite chars_str, <- app_assoc. reflexivity.
  - unfold dotless, pop. rewrite Hs. exact Hno.
  - unfold pop. rewrite Hs. destruct t as [|h' t'].
    + left. apply (Hone eq_refl).
    + right. destruct Hmore as [base Hb]; [discriminate|].
      exists base. exact Hb.
Qed.

Lemma NumberToString_natural (n : N) :
  (n <= 2 ^ 53)%N -> chars (NumberToString (Int (Z.of_N n))) = digits_of_N n.
Proof.
  intros Hn. change (2 ^ 53)%N with 9007199254740992%N in Hn.
  rewrite NumberToString_safe, N2Z.id by (change (2 ^ 53) with 9007199254740992; lia).
  apply chars_str.
Qed.

(** Digits followed by a character that is no digit are read up to it. *)
Lemma span_digits_app (l rest : list ascii) (c : ascii) :
  forallb is_digit l = true -> is_digit c = false ->
  span_digits 10 (l ++ c :: rest) = (fst (span_digits 10 l), c :: rest).
Proof.
  intros Hl Hc. induction l as [|d l IH]; simpl.
  - unfold is_digit, is_digit_in in Hc. destruct (digit_in 10 c); [discriminate | reflexivity].
  - simpl in Hl. apply andb_prop in Hl as [Hd Hl].
    destruct (is_digit_digit_in d Hd) as [v ->].
    rewrite (IH Hl). destruct (span_digits 10 l). reflexivity.
Qed.

(** Two numbers whose digits are followed by the same separator and the
    same rest are the same number. *)
Lemma digits_prefix_inj (n m : N) (c : ascii) (r r' : list ascii) :
  is_digit c = false ->
  digits_of_N n ++ c :: r = digits_of_N m ++ c :: r' ->
  n = m /\ r = r'.
Proof.
  intros Hc E.
  destruct (digits_of_N_spec n) as [[_ Hn]%andb_prop Vn].
  destruct (digits_of_N_spec m) as [[_ Hm]%andb_prop Vm].
  apply (f_equal (span_digits 10)) in E.
  rewrite !span_digits_app in E by assumption.
  injection E as Ev Er. split; [|exact Er].
  rewrite <- Vn, <- Vm, Ev. reflexivity.
Qed.

(** X2. Two uploads get the same file name exactly when they agree on the
    millisecond of [Date.now()], on the random number and on the extension:
    the scheme tells apart any two uploads that differ in one of the three,
    and collides on the rest.  The two numbers are taken among the integers
    that a JavaScript number holds exactly, up to [2^53]; [Date.now()] and the
    random number are far below. *)
Theorem filename_collision (f g : Upload) :
  (now f <= 2 ^ 53)%N -> (random1000 f <= 2 ^ 53)%N ->
  (now g <= 2 ^ 53)%N -> (random1000 g <= 2 ^ 53)%N ->
  filename f = filename g <->
  now f = now g /\ random1000 f = random1000 g /\
  pop (split "." (chars (originalname f))) = pop (split "." (chars (originalname g))).
Proof.
  intros Hf Hf' Hg Hg'. split.
  - intros E. apply (f_equal chars) in E. unfold filename in E.
    rewrite !chars_str, !NumberToString_natural in E by assumption.
    apply digits_prefix_inj in E as [En E]; [|reflexivity].
    apply digits_prefix_inj in E as [Er E]; [|reflexivity].
    auto.
  - intros (En & Er & Ee). unfold filename. rewrite En, Er, Ee. reflexivity.
Qed.

(** Two uploads in the same millisecond with different random numbers. *)
Lemma filename_collision_witness :
  filename front_png
  <> filename {| originalname := "front.png"; now := 1700000000000; random1000 := 418 |}.
Proof.
  intros E.
  assert (H : forall a : N, (a <=? 2 ^ 53)%N = true -> (a <= 2 ^ 53)%N)
    by (intros a; apply N.leb_le).
  pose proof (proj1 (filename_collision front_png
    {| originalname := "front.png"; now := 1700000000000; random1000 := 418 |}
    (H 1700000000000%N eq_refl) (H 417%N eq_refl)
    (H 1700000000000%N eq_refl) (H 418%N eq_refl)) E) as (_ & Hr & _).
  discriminate Hr.
Defined.

(* ===================================================================== *)
(** ** The two GET routes *)
(* ===================================================================== *)

(** X3. GET /all answers 200 with a JSON array that holds exactly the rows
    of the table, one entry per row, and asks the store once. *)
Theorem get_all_lists_table (w : World) :
  exists cars,
    get_all w = (Ok (json_array cars), record FindMany w) /\
    (forall car, car ∈ cars <-> exists i, db w !! i = Some car) /\
    length cars = size (db w).
Proof.
  exists ((map_to_list (db w)).*2). split; [reflexivity|]. split.
  - intros car. rewrite list_elem_of_fmap. split.
    + intros ([i c] & -> & Hin). exists i. apply elem_of_map_to_list. exact Hin.
    + intros [i Hi]. exists (i, car). split; [reflexivity|].
      apply elem_of_map_to_list. exact Hi.
  - rewrite length_fmap. apply length_map_to_list.
Qed.

(** X4. Whatever GET /read/:id answers is one of three things: 400 "Invalid
    car id." for a text that [isNaN] rejects; 404 "Car not found." for a text
    that passes and whose integer is the key of no row; 200 with the row
    stored under that integer. *)
Theorem get_read_answers (req : Request) (w : World) (r : Response) :
  fst (get_read req w) = Ok r ->
  (isNaN (params_id req) = true /\ r = send 400 "Invalid car id.") \/
  (isNaN (params_id req) = false /\
   exists i, Prisma.integer (parseInt (VString (params_id req))) = Some i /\
     match db w !! i with
     | None => r = send 404 "Car not found."
     | Some car => r = json car
     end).
Proof.
  destruct (isNaN (params_id req)) eqn:Hnum.
  - unfold get_read. rewrite Hnum. simpl. intros [= <-]. left. auto.
  - rewrite (get_read_eq req w Hnum). cbv zeta. cbn [fst].
    destruct (Prisma.integer _) as [i|]; [|discriminate].
    intros H. right. split; [reflexivity|]. exists i. split; [reflexivity|].
    destruct (db w !! i); injection H as <-; reflexivity.
Qed.

(** A key that [one_car] does not have. *)
Lemma get_read_answers_witness :
  isNaN "7" = false /\
  exists i, Prisma.integer (parseInt (VString "7")) = Some i /\
    match db one_car !! i with
    | None => send 404 "Car not found." = send 404 "Car not found."
    | Some car => send 404 "Car not found." = json car
    end.
Proof.
  destruct (get_read_answers (request "7" no_fields None) one_car
              (send 404 "Car not found.") eq_refl) as [[H _]|H].
  - discriminate H.
  - exact H.
Defined.

(** X5. The two GET routes read only: table, key counter, image directory,
    file work in flight and console are the same after them, whatever the
    request and whether or not the look-up throws. *)
Theorem get_routes_read_only (req : Request) (w : World) :
  let same (w' : World) :=
    db w' = db w /\ next_id w' = next_id w /\ files w' = files w /\
    pending w' = pending w /\ console w' = console w in
  same (snd (get_all w)) /\ same (snd (get_read req w)).
Proof.
  cbv zeta. split; [repeat split|].
  destruct (isNaN (params_id req)) eqn:Hnum.
  - unfold get_read. rewrite Hnum. repeat split.
  - rewrite (get_read_eq req w Hnum). repeat split.
Qed.

(* ===================================================================== *)
(** ** Uploads of requests that are turned away *)
(* ===================================================================== *)

(** X6. POST /create with an image and a required field missing or falsy:
    the upload middleware has stored the image before the handler answers
    400, and it stays.  The image directory has the new file, the table is
    as before, and the only thing the run did is write that file. *)
Theorem post_create_rejected_keeps_upload (req : Request) (w : World) (file : Upload) :
  Exists (fun v => ToBoolean v = false) (required (body req)) ->
  image req = Some file ->
  files (snd (post_create req w)) = files w ∪ {[ Fs.image_path (filename file) ]} /\
  db (snd (post_create req w)) = db w /\
  pending (snd (post_create req w)) = pending w /\
  added w (snd (post_create req w)) = [WriteFile (Fs.image_path (filename file))].
Proof.
  intros Hmiss%required_check Himg.
  unfold post_create, bind. rewrite Himg. simpl.
  unfold create_handler. rewrite Hmiss. simpl.
  repeat split. apply added_record. reflexivity.
Qed.

(** A create with an image and no [price], on an empty table and disk. *)
Lemma post_create_rejected_keeps_upload_witness :
  files (snd (post_create
                (request "" (Body.mk (VString "Model 3") (VString "Tesla") (VString "3")
                                     (VString "2024") VUndefined VUndefined)
                         (Some front_png)) empty_world))
    = ∅ ∪ {[ Fs.image_path (filename front_png) ]}.
Proof.
  refine (proj1 (post_create_rejected_keeps_upload
            (request "" (Body.mk (VString "Model 3") (VString "Tesla") (VString "3")
                                 (VString "2024") VUndefined VUndefined)
                     (Some front_png)) empty_world front_png _ eq_refl)).
  unfold required; simpl. do 4 apply Exists_cons_tl. apply Exists_cons_hd. reflexivity.
Defined.

(** X7. PUT /update/:id with a numeric [:id] that is the key of no row
    answers 404 "Car not found." after one look-up: the table is as before
    and no removal is started, but an image sent along has been stored and
    stays in the image directory. *)
Theorem put_update_not_found (req : Request) (w : World) (i : Z) :
  isNaN (params_id req) = false ->
  Prisma.integer (parseInt (VString (params_id req))) = Some i ->
  db w !! i = None ->
  fst (put_update req w) = Ok (send 404 "Car not found.") /\
  db (snd (put_update req w)) = db w /\
  pending (snd (put_update req w)) = pending w /\
  files (snd (put_update req w))
    = match image req with
      | Some file => files w ∪ {[ Fs.image_path (filename file) ]}
      | None => files w
      end /\
  store_accesses w (snd (put_update req w))
    = [FindUnique (parseInt (VString (params_id req)))].
Proof.
  intros Hnum Hid Hnone.
  destruct (upload_single_spec (image req) w) as (Hr & Hdb & _ & Hpend & _ & Htr).
  pose proof (upload_single_files (image req) w) as Hfiles.
  unfold put_update, bind.
  destruct (upload_single (image req) w) as [[file|e] w1];
    simpl in Hr, Hdb, Hpend, Htr, Hfiles; [|discriminate].
  rewrite (update_handler_eq req file w1 Hnum). cbv zeta.
  rewrite Hid, Hdb, Hnone. simpl.
  repeat split; auto.
  rewrite (store_accesses_trace w _ (match image req with
                                     | Some f => [WriteFile (Fs.image_path (filename f))]
                                     | None => []
                                     end ++ [FindUnique (parseInt (VString (params_id req)))])).
  - destruct (image req); reflexivity.
  - simpl. rewrite Htr, <- app_assoc. reflexivity.
Qed.

(** A new image for car 7, which [one_car] does not have. *)
Lemma put_update_not_found_witness :
  fst (put_update (request "7" no_fields (Some rear_jpg)) one_car)
    = Ok (send 404 "Car not found.") /\
  files (snd (put_update (request "7" no_fields (Some rear_jpg)) one_car))
    = files one_car ∪ {[ Fs.image_path (filename rear_jpg) ]}.
Proof.
  destruct (put_update_not_found (request "7" no_fields (Some rear_jpg)) one_car 7
              eq_refl eq_refl eq_refl) as (H1 & _ & _ & H4 & _).
  split; [exact H1 | exact H4].
Defined.

(* ===================================================================== *)
(** ** What a route does to the table *)
(* ===================================================================== *)

(** POST /create leaves the table alone or adds one row under the next key. *)
Lemma post_create_db (req : Request) (w : World) :
  (db (snd (post_create req w)) = db w /\
   next_id (snd (post_create req w)) = next_id w /\
   forall car, fst (post_create req w) <> Ok (json car)) \/
  (exists car,
     fst (post_create req w) = Ok (json car) /\
     Car.id car = next_id w /\
     db (snd (post_create req w)) = <[next_id w := car]> (db w) /\
     next_id (snd (post_create req w)) = next_id w + 1).
Proof.
  destruct (upload_single_spec (image req) w) as (Hr & Hdb & Hid & _).
  unfold post_create, bind.
  destruct (upload_single (image req) w) as [[file|e] w1]; simpl in Hr, Hdb, Hid;
    [|discriminate].
  unfold create_handler.
  match goal with |- context [if ?c then _ else _] => destruct c end.
  { left. simpl. repeat split; auto; discriminate. }
  unfold Prisma.create. monad.
  match goal with |- context [Prisma.row ?i ?d] =>
    destruct (Prisma.row i d) as [c|] eqn:E end; simpl.
  - right. exists c. rewrite (row_id _ _ _ E). simpl. rewrite Hid, Hdb. auto.
  - left. repeat split; auto; discriminate.
Qed.

(** PUT /update/:id leaves the table alone or replaces the row under the
    key of [:id] by one that carries the same key. *)
Lemma put_update_db (req : Request) (w : World) :
  next_id (snd (put_update req w)) = next_id w /\
  ((db (snd (put_update req w)) = db w /\
    forall car, fst (put_update req w) <> Ok (json car)) \/
   (exists i old car,
      isNaN (params_id req) = false /\
      Prisma.integer (parseInt (VString (params_id req))) = Some i /\
      db w !! i = Some old /\
      (image req = None \/ truthy_name (Car.imageName old) = None) /\
      Prisma.row i (updatedData req (filename <$> image req) old) = Some car /\
      fst (put_update req w) = Ok (json car) /\
      db (snd (put_update req w)) = <[i := car]> (db w))).
Proof.
  destruct (upload_single_spec (image req) w) as (Hr & Hdb & Hid & _).
  destruct (isNaN (params_id req)) eqn:Hnum.
  { unfold put_update, update_handler, bind. rewrite Hnum.
    destruct (upload_single (image req) w) as [[file|e] w1]; simpl in *; [|discriminate].
    split; [exact Hid|]. left. split; [exact Hdb | discriminate]. }
  destruct (Prisma.integer (parseInt (VString (params_id req)))) as [i|] eqn:Ei.
  - destruct (db w !! i) as [old|] eqn:Eo.
    + rewrite (put_update_found req w i old Hnum Ei Eo). cbv zeta.
      destruct (image req) as [file|] eqn:Eimg,
               (truthy_name (Car.imageName old)) as [name|] eqn:En;
        simpl fmap; cbv iota;
        try (split; [exact Hid|]; left; split; [exact Hdb | discriminate]);
        (destruct (Prisma.row i _) as [c|] eqn:E;
         [ split; [exact Hid|]; right; exists i, old, c;
           repeat split; auto; simpl; rewrite Hdb; reflexivity
         | split; [exact Hid|]; left; split; [exact Hdb | discriminate] ]).
    + unfold put_update, bind.
      destruct (upload_single (image req) w) as [[file|e] w1]; simpl in Hr, Hdb, Hid;
        [|discriminate].
      rewrite (update_handler_eq req file w1 Hnum). cbv zeta.
      rewrite Ei, Hdb, Eo. simpl.
      split; [exact Hid|]. left. split; [exact Hdb | discriminate].
  - unfold put_update, bind.
    destruct (upload_single (image req) w) as [[file|e] w1]; simpl in Hr, Hdb, Hid;
      [|discriminate].
    rewrite (update_handler_eq req file w1 Hnum). cbv zeta.
    rewrite Ei. simpl.
    split; [exact Hid|]. left. split; [exact Hdb | discriminate].
Qed.

(** DELETE /delete/:id leaves the table alone or removes the row under the
    key of [:id]; it answers 200 only when it has removed a row, and that row
    had no image. *)
Lemma delete_delete_db (req : Request) (w : World) :
  next_id (snd (delete_delete req w)) = next_id w /\
  ((db (snd (delete_delete req w)) = db w /\
    fst (delete_delete req w) <> Ok (send 200 "Car deleted successfully.")) \/
   (exists i old,
      isNaN (params_id req) = false /\
      Prisma.integer (parseInt (VString (params_id req))) = Some i /\
      db w !! i = Some old /\
      db (snd (delete_delete req w)) = base.delete i (db w) /\
      (fst (delete_delete req w) = Ok (send 200 "Car deleted successfully.") ->
       truthy_name (Car.imageName old) = None))).
Proof.
  destruct (isNaN (params_id req)) eqn:Hnum.
  { unfold delete_delete. rewrite Hnum. simpl.
    split; [reflexivity|]. left. split; [reflexivity | discriminate]. }
  rewrite (delete_delete_eq req w Hnum). cbv zeta.
  destruct (Prisma.integer _) as [i|] eqn:Ei;
    [|simpl; split; [reflexivity|]; left; split; [reflexivity | discriminate]].
  destruct (db w !! i) as [old|] eqn:Eo;
    [|simpl; split; [reflexivity|]; left; split; [reflexivity | discriminate]].
  split; [reflexivity|].
  right. exists i, old. repeat split; auto.
  cbn [fst]. destruct (truthy_name (Car.imageName old)); [discriminate | reflexivity].
Qed.

(** X8. Once DELETE /delete/:id has answered 200, the car is gone for every
    route that takes the same [:id]: GET /read/:id, a second DELETE and PUT
    /update/:id all answer 404 "Car not found.". *)
Theorem delete_then_gone (req : Request) (w : World) :
  fst (delete_delete req w) = Ok (send 200 "Car deleted successfully.") ->
  fst (get_read req (snd (delete_delete req w))) = Ok (send 404 "Car not found.") /\
  fst (delete_delete req (snd (delete_delete req w))) = Ok (send 404 "Car not found.") /\
  fst (put_update req (snd (delete_delete req w))) = Ok (send 404 "Car not found.").
Proof.
  intros Hok.
  destruct (delete_delete_db req w) as [_ [[_ Hno] | (i & old & Hnum & Hid & _ & Hdb & _)]];
    [contradiction|].
  set (w' := snd (delete_delete req w)) in *.
  assert (Hgone : db w' !! i = None) by (rewrite Hdb; apply lookup_delete_eq).
  split; [|split].
  - rewrite (get_read_eq req w' Hnum). cbv zeta. rewrite Hid, Hgone. reflexivity.
  - rewrite (delete_delete_eq req w' Hnum). cbv zeta. rewrite Hid, Hgone. reflexivity.
  - destruct (upload_single_spec (image req) w') as (Hr & Hdb' & _).
    unfold put_update, bind.
    destruct (upload_single (image req) w') as [[file|e] w1]; simpl in Hr, Hdb';
      [|discriminate].
    rewrite (update_handler_eq req file w1 Hnum). cbv zeta.
    rewrite Hid, Hdb', Hgone. reflexivity.
Qed.

(** The one car of [plain_car], which has no image, deleted and then asked
    for. *)
Lemma delete_then_gone_witness :
  fst (get_read (request "1" no_fields None)
                (snd (delete_delete (request "1" no_fields None) plain_car)))
    = Ok (send 404 "Car not found.").
Proof.
  apply (delete_then_gone (request "1" no_fields None) plain_car).
  vm_compute. reflexivity.
Defined.

(** X9. A record that PUT /update/:id answers with is read back whole: GET
    /read/:id with the same [:id], right after, answers 200 with that very
    record. *)
Theorem update_then_read (req rd : Request) (w : World) (car : Car.t) :
  fst (put_update req w) = Ok (json car) ->
  params_id rd = params_id req ->
  fst (get_read rd (snd (put_update req w))) = Ok (json car).
Proof.
  intros Hok Hrd.
  destruct (put_update_db req w)
    as [_ [[_ Hno] | (i & old & c & Hnum & Hid & _ & _ & _ & Hc & Hdb)]];
    [destruct (Hno car Hok)|].
  rewrite Hok in Hc. injection Hc as <-.
  rewrite <- Hrd in Hnum, Hid.
  rewrite (get_read_eq rd _ Hnum). cbv zeta. rewrite Hid, Hdb, lookup_insert_eq.
  reflexivity.
Qed.

(** A new price for the one car of [one_car], read back. *)
Lemma update_then_read_witness :
  fst (get_read (request "1" no_fields None)
                (snd (put_update (request "1" (only_price (VString "74990.5")) None)
                                 one_car)))
    = Ok (json (Car.mk 1 "Model S" "Tesla" "S" 2023 (Frac false 749905 1) ""
                       (Some "1700000000000-417.png"))).
Proof.
  apply (update_then_read (request "1" (only_price (VString "74990.5")) None)
                          (request "1" no_fields None) one_car).
  - vm_compute. reflexivity.
  - reflexivity.
Defined.

(** X10. A record that POST /create answers with is in the next GET /all. *)
Theorem create_then_listed (req : Request) (w : World) (car : Car.t) :
  fst (post_create req w) = Ok (json car) ->
  exists cars,
    fst (get_all (snd (post_create req w))) = Ok (json_array cars) /\ car ∈ cars.
Proof.
  intros Hok.
  destruct (post_create_db req w) as [(_ & _ & Hno) | (c & Hc & _ & Hdb & _)];
    [destruct (Hno car Hok)|].
  rewrite Hok in Hc. injection Hc as <-.
  exists ((map_to_list (db (snd (post_create req w)))).*2).
  split; [reflexivity|].
  apply list_elem_of_fmap. exists (next_id w, car). split; [reflexivity|].
  apply elem_of_map_to_list. rewrite Hdb. apply lookup_insert_eq.
Qed.

(** The Tesla of the specification, created and listed. *)
Lemma create_then_listed_witness :
  exists cars,
    fst (get_all (snd (post_create (request "" tesla_fields (Some front_png))
                                    empty_world)))
      = Ok (json_array cars) /\ tesla ∈ cars.
Proof.
  apply (create_then_listed (request "" tesla_fields (Some front_png)) empty_world
                            tesla).
  vm_compute. reflexivity.
Defined.

(** X11. PUT /update/:id without a new image is all or nothing: when the
    store refuses the merged data, the handler throws the validation error
    and table, key counter, image directory, file work in flight and console
    are as before. *)
Theorem put_update_refused_without_image
    (req : Request) (w : World) (i : Z) (car : Car.t) :
  isNaN (params_id req) = false ->
  Prisma.integer (parseInt (VString (params_id req))) = Some i ->
  db w !! i = Some car ->
  image req = None ->
  Prisma.row i (updatedData req None car) = None ->
  fst (put_update req w) = Throw PrismaValidationError /\
  db (snd (put_update req w)) = db w /\
  next_id (snd (put_update req w)) = next_id w /\
  files (snd (put_update req w)) = files w /\
  pending (snd (put_update req w)) = pending w /\
  console (snd (put_update req w)) = console w.
Proof.
  intros Hnum Hid Hcar Himg Hrow.
  rewrite (put_update_found req w i car Hnum Hid Hcar). cbv zeta.
  rewrite Himg. simpl fmap. rewrite Hrow. simpl. repeat split.
Qed.

(** A [price] that is no number for the one car of [one_car]. *)
Lemma put_update_refused_without_image_witness :
  fst (put_update (request "1" (only_price (VString "a lot")) None) one_car)
    = Throw PrismaValidationError /\
  db (snd (put_update (request "1" (only_price (VString "a lot")) None) one_car))
    = db one_car.
Proof.
  destruct (put_update_refused_without_image
              (request "1" (only_price (VString "a lot")) None) one_car 1 tesla)
    as (H1 & H2 & _).
  - vm_compute. reflexivity.
  - vm_compute. reflexivity.
  - rewrite db_one_car. apply lookup_insert_eq.
  - reflexivity.
  - vm_compute. reflexivity.
  - split; [exact H1 | exact H2].
Defined.

(* ===================================================================== *)
(** ** Keys *)
(* ===================================================================== *)

Lemma keys_ok_same (w w' : World) :
  db w' = db w -> next_id w' = next_id w -> keys_ok w -> keys_ok w'.
Proof. unfold keys_ok. intros -> ->. auto. Qed.

(** X12. In every row the [id] is the key the row is stored under, and no
    key in use has reached the store's next key.  This holds of the empty
    table, and every route and the event loop keep it: no route ever changes
    the [id] of a record or files a record under another key. *)
Theorem keys_ok_invariant (req : Request) (w : World) :
  keys_ok empty_world /\
  (keys_ok w ->
   keys_ok (snd (get_all w)) /\
   keys_ok (snd (get_read req w)) /\
   keys_ok (snd (post_create req w)) /\
   keys_ok (snd (put_update req w)) /\
   keys_ok (snd (delete_delete req w)) /\
   keys_ok (Fs.run_pending w)).
Proof.
  split.
  { intros i car. unfold empty_world; simpl. rewrite lookup_empty. discriminate. }
  intros Hok.
  split; [apply (keys_ok_same w); [reflexivity | reflexivity | exact Hok]|].
  split.
  { destruct (isNaN (params_id req)) eqn:Hnum.
    - unfold get_read. rewrite Hnum. exact Hok.
    - rewrite (get_read_eq req w Hnum).
      apply (keys_ok_same w); [reflexivity | reflexivity | exact Hok]. }
  split.
  { destruct (post_create_db req w) as [(Hdb & Hid & _) | (c & _ & Hc & Hdb & Hid)].
    - apply (keys_ok_same w); assumption.
    - intros j car. rewrite Hdb, Hid.
      destruct (decide (next_id w = j)) as [<-|Hne].
      + rewrite lookup_insert_eq. intros [= <-]. split; [exact Hc | lia].
      + rewrite lookup_insert_ne by exact Hne. intros Hj.
        destruct (Hok j car Hj). split; [assumption | lia]. }
  split.
  { destruct (put_update_db req w)
      as [Hid [[Hdb _] | (i & old & c & _ & _ & Hold & _ & Hrow & _ & Hdb)]].
    - apply (keys_ok_same w); assumption.
    - intros j car. rewrite Hdb, Hid.
      destruct (decide (i = j)) as [<-|Hne].
      + rewrite lookup_insert_eq. intros [= <-].
        split; [exact (row_id _ _ _ Hrow) | exact (proj2 (Hok i old Hold))].
      + rewrite lookup_insert_ne by exact Hne. apply Hok. }
  split.
  { destruct (delete_delete_db req w) as [Hid [[Hdb _] | (i & old & _ & _ & _ & Hdb & _)]].
    - apply (keys_ok_same w); assumption.
    - intros j car. rewrite Hdb, Hid.
      destruct (decide (i = j)) as [<-|Hne].
      + rewrite lookup_delete_eq. discriminate.
      + rewrite lookup_delete_ne by exact Hne. apply Hok. }
  apply (keys_ok_same w); [apply run_pending_db | | exact Hok].
  unfold Fs.run_pending.
  assert (H : forall l w0, next_id (fold_left (fun w u => Fs.complete u w) l w0) = next_id w0).
  { induction l as [|u l IH]; intros w0; simpl; [reflexivity|].
    rewrite IH. unfold Fs.complete. destruct (bool_decide _); reflexivity. }
  rewrite H. reflexivity.
Qed.

(** X13. On a table with sound keys, a POST /create that answers with a
    record adds exactly that one row: its key was free, the table has one row
    more, and every other key holds what it held. *)
Theorem post_create_adds_one (req : Request) (w : World) (car : Car.t) :
  keys_ok w ->
  fst (post_create req w) = Ok (json car) ->
  db w !! Car.id car = None /\
  size (db (snd (post_create req w))) = S (size (db w)) /\
  (forall j, j <> Car.id car -> db (snd (post_create req w)) !! j = db w !! j).
Proof.
  intros Hkeys Hok.
  destruct (post_create_db req w) as [(_ & _ & Hno) | (c & Hc & Hid & Hdb & _)];
    [destruct (Hno car Hok)|].
  rewrite Hok in Hc. injection Hc as <-.
  assert (Hfree : db w !! next_id w = None).
  { destruct (db w !! next_id w) as [c|] eqn:E; [|reflexivity].
    destruct (Hkeys _ _ E). lia. }
  rewrite Hid, Hdb. split; [exact Hfree|]. split.
  - apply map_size_insert_None. exact Hfree.
  - intros j Hj. apply lookup_insert_ne. auto.
Qed.

(** A second car for [one_car]. *)
Lemma post_create_adds_one_witness :
  size (db (snd (post_create (request "" tesla_fields None) one_car))) = S (size (db one_car)).
Proof.
  assert (Hkeys : keys_ok one_car).
  { intros i car. rewrite db_one_car. destruct (decide (1 = i)) as [<-|Hne].
    - rewrite lookup_insert_eq. intros [= <-]. split; reflexivity.
    - rewrite lookup_insert_ne, lookup_empty by exact Hne. discriminate. }
  assert (Hok : fst (post_create (request "" tesla_fields None) one_car)
                = Ok (json (Car.mk 2 "Model S" "Tesla" "S" 2023 tesla_price "" None)))
    by (vm_compute; reflexivity).
  exact (proj1 (proj2 (post_create_adds_one (request "" tesla_fields None) one_car
                         _ Hkeys Hok))).
Defined.

(** X14. A PUT /update/:id that answers with a record has rewritten one row
    and nothing else: the record carries the key of [:id] as its [id], the
    table has as many rows as before, and every other key holds what it
    held. *)
Theorem put_update_touches_one (req : Request) (w : World) (car : Car.t) :
  fst (put_update req w) = Ok (json car) ->
  exists i,
    Prisma.integer (parseInt (VString (params_id req))) = Some i /\
    Car.id car = i /\
    size (db (snd (put_update req w))) = size (db w) /\
    (forall j, j <> i -> db (snd (put_update req w)) !! j = db w !! j).
Proof.
  intros Hok.
  destruct (put_update_db req w)
    as [_ [[_ Hno] | (i & old & c & _ & Hi & Hold & _ & Hrow & Hc & Hdb)]];
    [destruct (Hno car Hok)|].
  rewrite Hok in Hc. injection Hc as <-.
  exists i. split; [exact Hi|]. split; [exact (row_id _ _ _ Hrow)|].
  rewrite Hdb. split.
  - apply map_size_insert_Some. rewrite Hold. eauto.
  - intros j Hj. apply lookup_insert_ne. auto.
Qed.

(** A new price for the one car of [one_car]. *)
Lemma put_update_touches_one_witness :
  exists i,
    Prisma.integer (parseInt (VString "1")) = Some i /\
    Car.id (Car.mk 1 "Model S" "Tesla" "S" 2023 (Frac false 749905 1) ""
                   (Some "1700000000000-417.png")) = i /\
    size (db (snd (put_update (request "1" (only_price (VString "74990.5")) None)
                              one_car))) = size (db one_car) /\
    (forall j, j <> i ->
       db (snd (put_update (request "1" (only_price (VString "74990.5")) None)
                           one_car)) !! j = db one_car !! j).
Proof.
  apply (put_update_touches_one (request "1" (only_price (VString "74990.5")) None)
                                one_car).
  vm_compute. reflexivity.
Defined.

(** X15. A DELETE /delete/:id that answers 200 has removed one row and
    nothing else: the table has one row less and every other key holds what
    it held. *)
Theorem delete_delete_removes_one (req : Request) (w : World) :
  fst (delete_delete req w) = Ok (send 200 "Car deleted successfully.") ->
  exists i,
    Prisma.integer (parseInt (VString (params_id req))) = Some i /\
    S (size (db (snd (delete_delete req w)))) = size (db w) /\
    (forall j, j <> i -> db (snd (delete_delete req w)) !! j = db w !! j).
Proof.
  intros Hok.
  destruct (delete_delete_db req w)
    as [_ [[_ Hno] | (i & old & _ & Hi & Hold & Hdb & _)]]; [contradiction|].
  exists i. split; [exact Hi|]. rewrite Hdb. split.
  - rewrite map_size_delete_Some by (rewrite Hold; eauto).
    assert (size (db w) <> 0%nat).
    { intros H0. apply map_size_empty_iff in H0. rewrite H0, lookup_empty in Hold.
      discriminate. }
    lia.
  - intros j Hj. apply lookup_delete_ne. auto.
Qed.

(** The one car of [plain_car], which has no image, deleted. *)
Lemma delete_delete_removes_one_witness :
  exists i,
    Prisma.integer (parseInt (VString "1")) = Some i /\
    S (size (db (snd (delete_delete (request "1" no_fields None) plain_car))))
      = size (db plain_car) /\
    (forall j, j <> i ->
       db (snd (delete_delete (request "1" no_fields None) plain_car)) !! j
         = db plain_car !! j).
Proof.
  apply (delete_delete_removes_one (request "1" no_fields None) plain_car).
  vm_compute. reflexivity.
Defined.

(* ===================================================================== *)
(** ** Answers and errors *)
(* ===================================================================== *)


(* ===================================================================== *)
(** ** The image of a record *)
(* ===================================================================== *)

(** X17. A POST /create with an image that answers with a record: the
    record names the file the upload was stored as, and that file is in the
    image directory. *)
Theorem post_create_image_stored (req : Request) (w : World) (car : Car.t) (file : Upload) :
  fst (post_create req w) = Ok (json car) ->
  image req = Some file ->
  Car.imageName car = Some (filename file) /\
  Fs.image_path (filename file) ∈ files (snd (post_create req w)).
Proof.
  intros Hok Himg. revert Hok.
  unfold post_create, bind. rewrite Himg. simpl.
  unfold create_handler.
  match goal with |- context [if ?c then _ else _] => destruct c end;
    [discriminate|].
  unfold Prisma.create. monad.
  match goal with |- context [Prisma.row ?i ?d] =>
    destruct (Prisma.row i d) as [c|] eqn:E end; simpl; [|discriminate].
  intros [= <-]. rewrite (row_imageName _ _ _ E). simpl.
  split; [reflexivity|]. apply elem_of_union_r, elem_of_singleton. reflexivity.
Qed.

(** The Tesla of the specification, created with an image. *)
Lemma post_create_image_stored_witness :
  Car.imageName tesla = Some (filename front_png) /\
  Fs.image_path (filename front_png)
    ∈ files (snd (post_create (request "" tesla_fields (Some front_png)) empty_world)).
Proof.
  apply (post_create_image_stored (request "" tesla_fields (Some front_png)) empty_world
                                  tesla front_png).
  - vm_compute. reflexivity.
  - reflexivity.
Defined.

(** X18. A PUT /update/:id with a new image answers with a record only for
    a car that had no image: the record then names the new file, that file is
    in the image directory, and no removal of a file has been started. *)
Theorem put_update_new_image
    (req : Request) (w : World) (i : Z) (old car : Car.t) (file : Upload) :
  isNaN (params_id req) = false ->
  Prisma.integer (parseInt (VString (params_id req))) = Some i ->
  db w !! i = Some old ->
  image req = Some file ->
  fst (put_update req w) = Ok (json car) ->
  truthy_name (Car.imageName old) = None /\
  Car.imageName car = Some (filename file) /\
  Fs.image_path (filename file) ∈ files (snd (put_update req w)) /\
  pending (snd (put_update req w)) = pending w.
Proof.
  intros Hnum Hid Hold Himg.
  rewrite (put_update_found req w i old Hnum Hid Hold). cbv zeta.
  rewrite Himg. simpl fmap. cbv iota.
  destruct (truthy_name (Car.imageName old)) as [name|]; [discriminate|].
  destruct (Prisma.row i _) as [c|] eqn:E; [|discriminate].
  simpl. intros [= <-]. rewrite (row_imageName _ _ _ E).
  split; [reflexivity|]. split; [reflexivity|].
  split; [|reflexivity]. apply elem_of_union_r, elem_of_singleton. reflexivity.
Qed.

(** A first image for the one car of [plain_car]. *)
Lemma put_update_new_image_witness :
  Car.imageName (Car.mk 1 "Model S" "Tesla" "S" 2023 tesla_price ""
                        (Some "1700000360000-52.jpg")) = Some (filename rear_jpg) /\
  Fs.image_path (filename rear_jpg)
    ∈ files (snd (put_update (request "1" no_fields (Some rear_jpg)) plain_car)).
Proof.
  assert (H := put_update_new_image (request "1" no_fields (Some rear_jpg)) plain_car 1
                 plain_tesla
                 (Car.mk 1 "Model S" "Tesla" "S" 2023 tesla_price ""
                         (Some "1700000360000-52.jpg"))
                 rear_jpg).
  destruct H as (_ & H2 & H3 & _).
  - vm_compute. reflexivity.
  - vm_compute. reflexivity.
  - vm_compute. reflexivity.
  - reflexivity.
  - vm_compute. reflexivity.
  - split; [exact H2 | exact H3].
Defined.

(** X19. No route removes a file.  The two handlers that call [fs.unlink]
    build its path from [__dirname] first and throw there; so after any
    request, whatever its answer, the file work in flight and the console are
    as before and the image directory holds at least what it held. *)
Theorem no_route_unlinks (req : Request) (w : World) :
  Forall (fun w' => pending w' = pending w /\ console w' = console w /\
                    files w ⊆ files w')
         [snd (get_all w); snd (get_read req w); snd (post_create req w);
          snd (put_update req w); snd (delete_delete req w)].
Proof.
  assert (Hup : files w ⊆ files (snd (upload_single (image req) w))).
  { rewrite upload_single_files. destruct (image req); set_solver. }
  repeat match goal with |- Forall _ (_ :: _) => apply List.Forall_cons end;
    [| | | | |apply List.Forall_nil].
  - simpl. auto.
  - destruct (isNaN (params_id req)) eqn:Hnum.
    + unfold get_read. rewrite Hnum. simpl. auto.
    + rewrite (get_read_eq req w Hnum). simpl. auto.
  - destruct (upload_single_spec (image req) w) as (Hr & _ & _ & Hpend & Hcons & _).
    revert Hup. unfold post_create, bind.
    destruct (upload_single (image req) w) as [[file|e] w1]; simpl in Hr, Hpend, Hcons;
      [|discriminate].
    unfold create_handler.
    match goal with |- context [if ?c then _ else _] => destruct c end;
      [simpl; auto|].
    unfold Prisma.create. monad.
    match goal with |- context [Prisma.row ?i ?d] => destruct (Prisma.row i d) end;
      simpl; auto.
  - destruct (put_update_pending req w) as (Hpend & Hcons & Hfiles).
    rewrite Hfiles. auto.
  - destruct (isNaN (params_id req)) eqn:Hnum.
    + unfold delete_delete. rewrite Hnum. simpl. auto.
    + rewrite (delete_delete_eq req w Hnum). cbv zeta.
      destruct (Prisma.integer _) as [i|]; [|simpl; auto].
      destruct (db w !! i) as [car|]; simpl; auto.
Qed.
